(** * Aegis trading dashboard: the polling-and-decision orchestrator

    A shallow embedding of [src/pages/trading-dashboard.tsx].  The React
    component keeps its data in [useState] cells; here the cells are the
    fields of one record, [AppState], and every callback of the component
    is a function that takes the state current when it runs and returns
    the state its setters produce.

    A [useCallback] closure reads the values of the render in which it
    was created, not the current ones.  Callbacks therefore take two
    states: [cap], the render captured by the closure, and [st], the
    state the setters act on.

    An [async] callback runs up to its first [await], is suspended, and
    is resumed by the reply.  Each callback is split at its awaits into
    segments; the replies of the network are arguments of the segment
    that receives them.  Requests sent are collected in a list of
    [Event]s, in the order they are sent. *)

From Stdlib Require Import ZArith List String Ascii Bool Lia DecimalString QArith.
From Stdlib Require DecimalPos.
Import ListNotations.

Open Scope string_scope.
Open Scope Z_scope.

(* ================================================================== *)
(** ** JavaScript values and built-ins used by the component *)
(* ================================================================== *)

Module Js.

(** A thrown value: an [Error] object with its [message], or anything
    else ([err instanceof Error] is false). *)
Inductive Thrown : Type :=
| ErrorObj (message : string)
| OtherValue.

(** The settlement of an awaited promise. *)
Inductive Outcome (A : Type) : Type :=
| Resolved (a : A)
| Rejected (e : Thrown).
Arguments Resolved {A} a.
Arguments Rejected {A} e.

(** A [Response]: its [ok] flag and what [response.json()] settles to. *)
Record Response (A : Type) : Type := mkResponse {
  ok : bool;
  json : Outcome A
}.
Arguments mkResponse {A} ok json.
Arguments ok {A} r.
Arguments json {A} r.

(** Truthiness of a string: only the empty string is falsy. *)
Definition truthy (s : string) : bool :=
  match s with
  | EmptyString => false
  | String _ _ => true
  end.

(** Truthiness of an optional string property ([undefined] is falsy). *)
Definition truthy_opt (o : option string) : bool :=
  match o with
  | None => false
  | Some s => truthy s
  end.

(** [a || []] for an optional array property: an array, even an empty
    one, is truthy; a missing property is not. *)
Definition or_empty {A : Type} (o : option (list A)) : list A :=
  match o with
  | Some l => l
  | None => []
  end.

(** Relative index of [Array.prototype.slice]: a negative index counts
    from the end, and the result is clamped to [0, len]. *)
Definition rel_index (len k : Z) : Z :=
  if k <? 0 then Z.max (len + k) 0 else Z.min k len.

(** [arr.slice(start, end)]; [stop = None] is an omitted [end]. *)
Definition slice {A : Type} (start : Z) (stop : option Z) (arr : list A) : list A :=
  let len := Z.of_nat (List.length arr) in
  let k := rel_index len start in
  let final := match stop with
               | None => len
               | Some e => rel_index len e
               end in
  firstn (Z.to_nat (Z.max (final - k) 0)) (skipn (Z.to_nat k) arr).

(** [String(n)] for an integral number. *)
Definition string_of_Z (n : Z) : string :=
  NilZero.string_of_int (Z.to_int n).

(** *** [parseInt(string)] with the radix omitted

    The result is [None] for [NaN] and [Some n] for the integer read;
    [-0] is [Some 0], which is falsy like [+0].  The integer is the
    exact one: the rounding of integers above [2^53] to a double is
    left out (it is monotone and keeps every small integer, so it
    does not move a value across the bounds 1, 100 and 125). *)

Definition code (c : ascii) : Z := Z.of_nat (nat_of_ascii c).

(** White space and line terminators among the code units below 256. *)
Definition isWhiteSpace (c : ascii) : bool :=
  let n := code c in
  ((9 <=? n) && (n <=? 13)) || (n =? 32) || (n =? 160).

Fixpoint trimStart (s : string) : string :=
  match s with
  | EmptyString => EmptyString
  | String c r => if isWhiteSpace c then trimStart r else s
  end.

Definition isDecimalDigit (c : ascii) : bool :=
  let n := code c in (48 <=? n) && (n <=? 57).

(** Value of a character as a digit, for radices up to 36. *)
Definition digitValue (c : ascii) : option Z :=
  let n := code c in
  if (48 <=? n) && (n <=? 57) then Some (n - 48)
  else if (97 <=? n) && (n <=? 122) then Some (n - 97 + 10)
  else if (65 <=? n) && (n <=? 90) then Some (n - 65 + 10)
  else None.

(** Reads the longest prefix of radix-[R] digits; [acc] is [None] until
    a digit has been read. *)
Fixpoint parseDigits (R : Z) (s : string) (acc : option Z) : option Z :=
  match s with
  | EmptyString => acc
  | String c r =>
      match digitValue c with
      | Some d =>
          if d <? R
          then parseDigits R r (Some (match acc with
                                      | None => d
                                      | Some a => a * R + d
                                      end))
          else acc
      | None => acc
      end
  end.

(** Sign of the trimmed input and the input after the sign. *)
Definition stripSign (s : string) : Z * string :=
  match s with
  | String "-" r => (-1, r)
  | String "+" r => (1, r)
  | _ => (1, s)
  end.

(** Radix and the input after a [0x] / [0X] prefix. *)
Definition stripPrefix (s : string) : Z * string :=
  match s with
  | String "0" (String "x" r) => (16, r)
  | String "0" (String "X" r) => (16, r)
  | _ => (10, s)
  end.

Definition parseInt (input : string) : option Z :=
  let '(sign, S1) := stripSign (trimStart input) in
  let '(R, S2) := stripPrefix S1 in
  match parseDigits R S2 None with
  | None => None
  | Some mathInt => Some (sign * mathInt)
  end.

(** [x || d] for a number [x]: [NaN] and zero are falsy. *)
Definition num_or (x : option Z) (d : Z) : Z :=
  match x with
  | None => d
  | Some 0 => d
  | Some n => n
  end.

End Js.

Import Js.

(* ================================================================== *)
(** ** The data model ([@shared/schema] as the component uses it) *)
(* ================================================================== *)

Module LogType.
Inductive t : Type := INFO | SUCCESS | ERROR | TRADE.
End LogType.

Module Status.
Inductive t : Type := CONNECTED | DISCONNECTED | ERROR.
End Status.

Inductive AIProvider : Type := gemini | openai | deepseek.

Record AppSettings : Type := mkSettings {
  aiProvider : AIProvider;
  geminiApiKey : string;
  openaiApiKey : string;
  deepseekApiKey : string;
  mexcApiKey : string;
  mexcSecretKey : string;
  tradingSymbol : string;
  defaultLeverage : Z;
  riskPercent : Z;
  isAutoTrading : bool;
  intervalMinutes : Z;
  isLiveMode : bool;
  supabaseUrl : string;
  supabaseAnonKey : string
}.

Definition defaultSettings : AppSettings := {|
  aiProvider := gemini;
  geminiApiKey := "";
  openaiApiKey := "";
  deepseekApiKey := "";
  mexcApiKey := "";
  mexcSecretKey := "";
  tradingSymbol := "BTCUSDT";
  defaultLeverage := 10;
  riskPercent := 2;
  isAutoTrading := false;
  intervalMinutes := 1;
  isLiveMode := false;
  supabaseUrl := "";
  supabaseAnonKey := ""
|}.

(** Prices are carried, never computed on. *)
Definition Price : Type := Q.

Record PricePoint : Type := mkPoint {
  time : string;
  point_price : Price
}.

(** What the ticker endpoint answers. *)
Record Ticker : Type := mkTicker {
  ticker_price : Price;
  ticker_change24h : Price
}.

Record MarketData : Type := mkMarket {
  price : Price;
  change24h : Price;
  history : list PricePoint
}.

Record MexcBalance : Type := mkBalance {
  asset : string;
  total : string;
  available : string
}.

Record Position : Type := mkPosition {
  pos_symbol : string;
  side : string;
  pos_leverage : Z;
  entryPrice : Price;
  pos_pnl : Price
}.

Record MexcOrder : Type := mkOrder {
  order_symbol : string;
  order_side : string;
  order_price : Price
}.

Record MexcTrade : Type := mkTrade {
  trade_symbol : string;
  trade_side : string;
  trade_price : Price;
  trade_pnl : Price
}.

(** The oracle's decision.  The action vocabulary is open: any string,
    of which only ["WAIT"] is tested by the component. *)
Record TradeAction : Type := mkDecision {
  action : string;
  confidence : Z;
  reason : string
}.

Record TradingLog : Type := mkLog {
  id : string;
  timestamp : string;
  type : LogType.t;
  message : string
}.

(** The [useState] cells of [TradingDashboard] that the orchestrator
    reads or writes. *)
Record AppState : Type := mkState {
  isLoggedIn : bool;
  settings : AppSettings;
  marketData : option MarketData;
  spotBalances : list MexcBalance;
  futuresBalances : list MexcBalance;
  mexcPositions : list Position;
  mexcOrders : list MexcOrder;
  mexcTrades : list MexcTrade;
  logs : list TradingLog;
  lastAction : option TradeAction;
  isLoading : bool;
  isAnalyzing : bool;
  mexcStatus : Status.t
}.

(** The state of the first render; [loaded] is what the initialiser of
    the settings cell returns (the saved record or [defaultSettings]). *)
Definition initialState (loaded : AppSettings) : AppState := {|
  isLoggedIn := false;
  settings := loaded;
  marketData := None;
  spotBalances := [];
  futuresBalances := [];
  mexcPositions := [];
  mexcOrders := [];
  mexcTrades := [];
  logs := [];
  lastAction := None;
  isLoading := true;
  isAnalyzing := false;
  mexcStatus := Status.DISCONNECTED
|}.

(** *** State setters *)

Definition setSettings (f : AppSettings -> AppSettings) (st : AppState) : AppState :=
  mkState (isLoggedIn st) (f (settings st)) (marketData st) (spotBalances st)
          (futuresBalances st) (mexcPositions st) (mexcOrders st) (mexcTrades st)
          (logs st) (lastAction st) (isLoading st) (isAnalyzing st) (mexcStatus st).

Definition setIsLoggedIn (b : bool) (st : AppState) : AppState :=
  mkState b (settings st) (marketData st) (spotBalances st)
          (futuresBalances st) (mexcPositions st) (mexcOrders st) (mexcTrades st)
          (logs st) (lastAction st) (isLoading st) (isAnalyzing st) (mexcStatus st).

Definition setMarketData (f : option MarketData -> option MarketData) (st : AppState) : AppState :=
  mkState (isLoggedIn st) (settings st) (f (marketData st)) (spotBalances st)
          (futuresBalances st) (mexcPositions st) (mexcOrders st) (mexcTrades st)
          (logs st) (lastAction st) (isLoading st) (isAnalyzing st) (mexcStatus st).

Definition setSpotBalances (v : list MexcBalance) (st : AppState) : AppState :=
  mkState (isLoggedIn st) (settings st) (marketData st) v
          (futuresBalances st) (mexcPositions st) (mexcOrders st) (mexcTrades st)
          (logs st) (lastAction st) (isLoading st) (isAnalyzing st) (mexcStatus st).

Definition setFuturesBalances (v : list MexcBalance) (st : AppState) : AppState :=
  mkState (isLoggedIn st) (settings st) (marketData st) (spotBalances st)
          v (mexcPositions st) (mexcOrders st) (mexcTrades st)
          (logs st) (lastAction st) (isLoading st) (isAnalyzing st) (mexcStatus st).

Definition setMexcPositions (v : list Position) (st : AppState) : AppState :=
  mkState (isLoggedIn st) (settings st) (marketData st) (spotBalances st)
          (futuresBalances st) v (mexcOrders st) (mexcTrades st)
          (logs st) (lastAction st) (isLoading st) (isAnalyzing st) (mexcStatus st).

Definition setMexcOrders (v : list MexcOrder) (st : AppState) : AppState :=
  mkState (isLoggedIn st) (settings st) (marketData st) (spotBalances st)
          (futuresBalances st) (mexcPositions st) v (mexcTrades st)
          (logs st) (lastAction st) (isLoading st) (isAnalyzing st) (mexcStatus st).

Definition setMexcTrades (v : list MexcTrade) (st : AppState) : AppState :=
  mkState (isLoggedIn st) (settings st) (marketData st) (spotBalances st)
          (futuresBalances st) (mexcPositions st) (mexcOrders st) v
          (logs st) (lastAction st) (isLoading st) (isAnalyzing st) (mexcStatus st).

Definition setLogs (f : list TradingLog -> list TradingLog) (st : AppState) : AppState :=
  mkState (isLoggedIn st) (settings st) (marketData st) (spotBalances st)
          (futuresBalances st) (mexcPositions st) (mexcOrders st) (mexcTrades st)
          (f (logs st)) (lastAction st) (isLoading st) (isAnalyzing st) (mexcStatus st).

Definition setLastAction (v : option TradeAction) (st : AppState) : AppState :=
  mkState (isLoggedIn st) (settings st) (marketData st) (spotBalances st)
          (futuresBalances st) (mexcPositions st) (mexcOrders st) (mexcTrades st)
          (logs st) v (isLoading st) (isAnalyzing st) (mexcStatus st).

Definition setIsLoading (b : bool) (st : AppState) : AppState :=
  mkState (isLoggedIn st) (settings st) (marketData st) (spotBalances st)
          (futuresBalances st) (mexcPositions st) (mexcOrders st) (mexcTrades st)
          (logs st) (lastAction st) b (isAnalyzing st) (mexcStatus st).

Definition setIsAnalyzing (b : bool) (st : AppState) : AppState :=
  mkState (isLoggedIn st) (settings st) (marketData st) (spotBalances st)
          (futuresBalances st) (mexcPositions st) (mexcOrders st) (mexcTrades st)
          (logs st) (lastAction st) (isLoading st) b (mexcStatus st).

Definition setMexcStatus (v : Status.t) (st : AppState) : AppState :=
  mkState (isLoggedIn st) (settings st) (marketData st) (spotBalances st)
          (futuresBalances st) (mexcPositions st) (mexcOrders st) (mexcTrades st)
          (logs st) (lastAction st) (isLoading st) (isAnalyzing st) v.

(** The five collections of the account, as one tuple. *)
Definition accountState (st : AppState) :
  list MexcBalance * list MexcBalance * list Position * list MexcOrder * list MexcTrade :=
  (spotBalances st, futuresBalances st, mexcPositions st, mexcOrders st, mexcTrades st).

(* ================================================================== *)
(** ** Event ledger: [addLog] and the clear button *)
(* ================================================================== *)

(** What the clock answers when a log entry is built: [Date.now()] and
    [new Date().toLocaleTimeString()]. *)
Record Clock : Type := mkClock {
  dateNow : Z;
  localeTime : string
}.

Definition addLog (clk : Clock) (ty : LogType.t) (msg : string) (st : AppState) : AppState :=
  let newLog := {| id := string_of_Z (dateNow clk);
                   timestamp := localeTime clk;
                   type := ty;
                   message := msg |} in
  setLogs (fun prev => slice 0 (Some 100) (newLog :: prev)) st.

(** [onClick={() => setLogs([])}] of the clear-logs button. *)
Definition clearLogs (st : AppState) : AppState :=
  setLogs (fun _ => []) st.

(** A use of the ledger: an emission or a press of the clear button. *)
Inductive LedgerOp : Type :=
| Emit (clk : Clock) (ty : LogType.t) (msg : string)
| Clear.

Definition ledger_step (st : AppState) (op : LedgerOp) : AppState :=
  match op with
  | Emit clk ty msg => addLog clk ty msg st
  | Clear => clearLogs st
  end.

Definition ledger_run (ops : list LedgerOp) (st : AppState) : AppState :=
  fold_left ledger_step ops st.

(** The entry an emission builds. *)
Definition entry_of (clk : Clock) (ty : LogType.t) (msg : string) : TradingLog :=
  {| id := string_of_Z (dateNow clk); timestamp := localeTime clk;
     type := ty; message := msg |}.

(** An emission as data: the clock reading, the type and the text. *)
Definition Emission : Type := (Clock * LogType.t * string)%type.

Definition emit (e : Emission) : LedgerOp :=
  let '(clk, ty, msg) := e in Emit clk ty msg.

Definition entry (e : Emission) : TradingLog :=
  let '(clk, ty, msg) := e in entry_of clk ty msg.

(** The entries emitted since the last clear, newest first, on top of
    the entries [old] that were there before. *)
Fixpoint emitted_newest_first (ops : list LedgerOp) (old : list TradingLog) : list TradingLog :=
  match ops with
  | [] => old
  | Emit clk ty msg :: rest => emitted_newest_first rest (entry_of clk ty msg :: old)
  | Clear :: rest => emitted_newest_first rest []
  end.

(* ================================================================== *)
(** ** Requests sent to the collaborators *)
(* ================================================================== *)

(** Body of [POST /api/mexc/account]. *)
Record AccountRequest : Type := mkAccountRequest {
  acc_apiKey : string;
  acc_secretKey : string;
  acc_symbol : string
}.

(** Body of [POST /api/ai/analyze]. *)
Record AnalyzeRequest : Type := mkAnalyzeRequest {
  an_aiProvider : AIProvider;
  an_geminiApiKey : string;
  an_openaiApiKey : string;
  an_deepseekApiKey : string;
  an_tradingSymbol : string;
  an_defaultLeverage : Z;
  an_marketData : MarketData;
  an_currentPositionSide : string
}.

(** Body of [POST /api/mexc/trade]. *)
Record TradeRequest : Type := mkTradeRequest {
  tr_action : string;
  tr_apiKey : string;
  tr_secretKey : string;
  tr_symbol : string;
  tr_leverage : Z;
  tr_price : Price
}.

(** What a callback does to the outside, in order: the requests it
    sends, and the call of [refreshAccountData()] it makes. *)
Inductive Event : Type :=
| EvFetchTicker (symbol : string)
| EvPostAccount (body : AccountRequest)
| EvPostAnalyze (body : AnalyzeRequest)
| EvPostTrade (body : TradeRequest)
| EvRefreshAccountData.

Definition is_trade (e : Event) : bool :=
  match e with EvPostTrade _ => true | _ => false end.

Definition is_analyze (e : Event) : bool :=
  match e with EvPostAnalyze _ => true | _ => false end.

Definition is_account_fetch (e : Event) : bool :=
  match e with EvPostAccount _ => true | _ => false end.

Definition is_refresh (e : Event) : bool :=
  match e with EvRefreshAccountData => true | _ => false end.

(** [await apiRequest(...)] followed by [await response.json()]: either
    await may throw.  [apiRequest] comes from [@/lib/queryClient]; what
    it settles to is an argument of the callbacks below, and a network
    failure or an HTTP error status is one of its rejections. *)
Definition await_json {A : Type} (reply : Outcome (Response A)) : Outcome A :=
  match reply with
  | Rejected e => Rejected e
  | Resolved response => json response
  end.

(** [e.message] inside a template literal. *)
Definition message_text (e : Thrown) : string :=
  match e with
  | ErrorObj m => m
  | OtherValue => "undefined"
  end.

(* ================================================================== *)
(** ** Market poller: [refreshMarket] *)
(* ================================================================== *)

Definition refreshMarket_request (cap : AppState) : Event :=
  EvFetchTicker (tradingSymbol (settings cap)).

(** The [catch] block of [refreshMarket]. *)
Definition refreshMarket_catch (cap st : AppState) : AppState :=
  if isLoading cap then setIsLoading false st else st.

(** The updater passed to [setMarketData]. *)
Definition mergeTicker (currentTime : string) (ticker : Ticker)
           (prev : option MarketData) : option MarketData :=
  let history := match prev with
                 | Some p => history p
                 | None => []
                 end in
  let newHistory :=
    slice (-50) None
          (history ++ [ {| time := currentTime; point_price := ticker_price ticker |} ])%list in
  Some {| price := ticker_price ticker;
          change24h := ticker_change24h ticker;
          history := newHistory |}.

(** [refreshMarket] from the reply of [fetch] on; [currentTime] is the
    clock read after the body has been parsed. *)
Definition refreshMarket (cap : AppState) (currentTime : string)
           (reply : Outcome (Response Ticker)) (st : AppState) : AppState :=
  match reply with
  | Rejected _ => refreshMarket_catch cap st
  | Resolved response =>
      if negb (ok response) then refreshMarket_catch cap st
      else match json response with
           | Rejected _ => refreshMarket_catch cap st
           | Resolved ticker =>
               let st1 := setMarketData (mergeTicker currentTime ticker) st in
               if isLoading cap then setIsLoading false st1 else st1
           end
  end.

(** One tick of the poller: the render its closure captured, the clock,
    and what the fetch settled to. *)
Record MarketTick : Type := mkTick {
  tick_cap : AppState;
  tick_time : string;
  tick_reply : Outcome (Response Ticker)
}.

Definition market_step (st : AppState) (t : MarketTick) : AppState :=
  refreshMarket (tick_cap t) (tick_time t) (tick_reply t) st.

Definition market_run (ticks : list MarketTick) (st : AppState) : AppState :=
  fold_left market_step ticks st.

(** The point a tick contributes: one for a successful fetch, none for a
    failed one (rejected fetch, status not ok, or unreadable body). *)
Definition tick_point (t : MarketTick) : option PricePoint :=
  match tick_reply t with
  | Rejected _ => None
  | Resolved response =>
      if ok response
      then match json response with
           | Resolved ticker =>
               Some {| time := tick_time t; point_price := ticker_price ticker |}
           | Rejected _ => None
           end
      else None
  end.

Fixpoint successful_points (ticks : list MarketTick) : list PricePoint :=
  match ticks with
  | [] => []
  | t :: rest =>
      match tick_point t with
      | Some p => p :: successful_points rest
      | None => successful_points rest
      end
  end.

Definition history_of (st : AppState) : list PricePoint :=
  match marketData st with
  | Some m => history m
  | None => []
  end.

(** The [n] most recent elements of a chronological list. *)
Definition most_recent {A : Type} (n : nat) (l : list A) : list A :=
  skipn (List.length l - n) l.

(* ================================================================== *)
(** ** Account synchronizer: [refreshAccountData] *)
(* ================================================================== *)

(** The body of a reply of [/api/mexc/account]; every property may be
    missing. *)
Record AccountPayload : Type := mkPayload {
  error : option string;
  data_spotBalances : option (list MexcBalance);
  data_futuresBalances : option (list MexcBalance);
  data_positions : option (list Position);
  data_orders : option (list MexcOrder);
  data_trades : option (list MexcTrade)
}.

(** Up to the first await: the guard, and the request if it passes. *)
Definition refreshAccountData_start (cap st : AppState) : AppState * option AccountRequest :=
  if negb (truthy (mexcApiKey (settings cap)))
     || negb (truthy (mexcSecretKey (settings cap)))
     || negb (isLoggedIn cap)
  then (setMexcStatus Status.DISCONNECTED st, None)
  else (st, Some {| acc_apiKey := mexcApiKey (settings cap);
                    acc_secretKey := mexcSecretKey (settings cap);
                    acc_symbol := tradingSymbol (settings cap) |}).

(** The [catch] block of [refreshAccountData]. *)
Definition refreshAccountData_catch (clk : Clock) (e : Thrown) (st : AppState) : AppState :=
  setMexcStatus Status.ERROR
    (addLog clk LogType.ERROR ("MEXC sync error: " ++ message_text e) st).

(** From the reply on. *)
Definition refreshAccountData_resume (clk : Clock)
           (reply : Outcome (Response AccountPayload)) (st : AppState) : AppState :=
  match await_json reply with
  | Rejected e => refreshAccountData_catch clk e st
  | Resolved data =>
      if truthy_opt (error data)
      then refreshAccountData_catch clk
             (ErrorObj (match error data with Some s => s | None => "" end)) st
      else
        let st1 := setSpotBalances (or_empty (data_spotBalances data)) st in
        let st2 := setFuturesBalances (or_empty (data_futuresBalances data)) st1 in
        let st3 := setMexcPositions (or_empty (data_positions data)) st2 in
        let st4 := setMexcOrders (or_empty (data_orders data)) st3 in
        let st5 := setMexcTrades (or_empty (data_trades data)) st4 in
        let st6 := setMexcStatus Status.CONNECTED st5 in
        addLog clk LogType.SUCCESS "MEXC account synced successfully" st6
  end.

(** A whole run: [reply] is read only when the request was sent. *)
Definition refreshAccountData (cap : AppState) (clk : Clock)
           (reply : Outcome (Response AccountPayload)) (st : AppState)
  : AppState * list Event :=
  match refreshAccountData_start cap st with
  | (st1, None) => (st1, [])
  | (st1, Some req) => (refreshAccountData_resume clk reply st1, [EvPostAccount req])
  end.

(** The two ways a run fails, with the reason reported: the request or
    the reading of its body throws, or the body carries an error text.
    The component tests the text with [if (data.error)], so an empty
    text does not count. *)
Inductive SyncFails : Outcome (Response AccountPayload) -> string -> Prop :=
| fails_thrown (reply : Outcome (Response AccountPayload)) (e : Thrown) :
    await_json reply = Rejected e ->
    SyncFails reply (message_text e)
| fails_payload (reply : Outcome (Response AccountPayload))
                (data : AccountPayload) (s : string) :
    await_json reply = Resolved data ->
    error data = Some s ->
    s <> "" ->
    SyncFails reply s.

(** A run succeeds with body [data]. *)
Definition SyncSucceeds (reply : Outcome (Response AccountPayload))
           (data : AccountPayload) : Prop :=
  await_json reply = Resolved data /\ truthy_opt (error data) = false.

(* ================================================================== *)
(** ** Decision cycle: [runTradingCycle] *)
(* ================================================================== *)

Definition currentPositionSide (positions : list Position) : string :=
  match positions with
  | p :: _ => side p
  | [] => "NONE"
  end.

(** The text logged by the [catch] block of [runTradingCycle]. *)
Definition analysis_failed_message (err : Thrown) : string :=
  "AI analysis failed: " ++ match err with
                            | ErrorObj m => m
                            | OtherValue => "Unknown"
                            end.

(** The [catch] block of [runTradingCycle]. *)
Definition runTradingCycle_catch (clk : Clock) (err : Thrown) (st : AppState) : AppState :=
  setIsAnalyzing false (addLog clk LogType.ERROR (analysis_failed_message err) st).

(** The body sent to the oracle. *)
Definition analyze_body (cap : AppState) (md : MarketData) : AnalyzeRequest :=
  {| an_aiProvider := aiProvider (settings cap);
     an_geminiApiKey := geminiApiKey (settings cap);
     an_openaiApiKey := openaiApiKey (settings cap);
     an_deepseekApiKey := deepseekApiKey (settings cap);
     an_tradingSymbol := tradingSymbol (settings cap);
     an_defaultLeverage := defaultLeverage (settings cap);
     an_marketData := md;
     an_currentPositionSide := currentPositionSide (mexcPositions cap) |}.

(** The order sent to the exchange. *)
Definition trade_body (cap : AppState) (md : MarketData) (decision : TradeAction)
  : TradeRequest :=
  {| tr_action := action decision;
     tr_apiKey := mexcApiKey (settings cap);
     tr_secretKey := mexcSecretKey (settings cap);
     tr_symbol := tradingSymbol (settings cap);
     tr_leverage := defaultLeverage (settings cap);
     tr_price := price md |}.

(** Up to the oracle call.  The result carries the market snapshot the
    closure holds when the cycle is suspended on the oracle, and [None]
    when the cycle returned at the guard. *)
Definition runTradingCycle_start (cap st : AppState)
  : AppState * list Event * option MarketData :=
  if negb (isAutoTrading (settings cap)) then (st, [], None)
  else match marketData cap with
       | None => (st, [], None)
       | Some md =>
           (setIsAnalyzing true st, [EvPostAnalyze (analyze_body cap md)], Some md)
       end.

Definition decision_message (decision : TradeAction) : string :=
  "AI decision: " ++ action decision ++ " (" ++ string_of_Z (confidence decision) ++ "%)".

(** From the oracle's reply to the order submission.  The boolean says
    whether the cycle is now suspended on the submission. *)
Definition runTradingCycle_onAnalyze (cap : AppState) (md : MarketData) (clk : Clock)
           (reply : Outcome (Response TradeAction)) (st : AppState)
  : AppState * list Event * bool :=
  match await_json reply with
  | Rejected e => (runTradingCycle_catch clk e st, [], false)
  | Resolved decision =>
      let st1 := setLastAction (Some decision) st in
      if negb (action decision =? "WAIT")%string then
        let st2 := addLog clk LogType.TRADE (decision_message decision) st1 in
        if isLiveMode (settings cap) then
          (st2, [EvPostTrade (trade_body cap md decision)], true)
        else (setIsAnalyzing false st2, [], false)
      else (setIsAnalyzing false st1, [], false)
  end.

(** From the settlement of the submission on.  [refreshAccountData()] is
    called and not awaited: it runs up to its own first await. *)
Definition runTradingCycle_onTrade (cap : AppState) (clk : Clock)
           (reply : Outcome (Response string)) (st : AppState)
  : AppState * list Event :=
  match reply with
  | Rejected e => (runTradingCycle_catch clk e st, [])
  | Resolved _ =>
      let '(st1, req) := refreshAccountData_start cap st in
      (setIsAnalyzing false st1,
       EvRefreshAccountData :: match req with
                               | Some r => [EvPostAccount r]
                               | None => []
                               end)
  end.

(** What the collaborators answer to one cycle, and the clock at each
    resumption.  A reply is read only if its request was sent. *)
Record CycleEnv : Type := mkCycleEnv {
  oracle_reply : Outcome (Response TradeAction);
  oracle_clock : Clock;
  trade_reply : Outcome (Response string);
  trade_clock : Clock
}.

(** One cycle run from start to end with nothing interleaved. *)
Definition runTradingCycle (cap : AppState) (env : CycleEnv) (st : AppState)
  : AppState * list Event :=
  match runTradingCycle_start cap st with
  | (st1, ev1, None) => (st1, ev1)
  | (st1, ev1, Some md) =>
      match runTradingCycle_onAnalyze cap md (oracle_clock env) (oracle_reply env) st1 with
      | (st2, ev2, false) => (st2, (ev1 ++ ev2)%list)
      | (st2, ev2, true) =>
          let '(st3, ev3) := runTradingCycle_onTrade cap (trade_clock env) (trade_reply env) st2 in
          (st3, (ev1 ++ ev2 ++ ev3)%list)
      end
  end.

(** The oracle was asked in a run of the cycle: the request is among
    the events of the run. *)
Definition oracle_asked (cap : AppState) (env : CycleEnv) (st : AppState) : bool :=
  existsb is_analyze (snd (runTradingCycle cap env st)).

(** The decision the oracle returned in a run of the cycle, if it was
    asked and answered. *)
Definition oracle_returned (cap : AppState) (env : CycleEnv) (st : AppState)
  : option TradeAction :=
  if oracle_asked cap env st
  then match await_json (oracle_reply env) with
       | Resolved decision => Some decision
       | Rejected _ => None
       end
  else None.

(** What the oracle call threw in a run of the cycle, if it was made
    and failed. *)
Definition oracle_failed (cap : AppState) (env : CycleEnv) (st : AppState)
  : option Thrown :=
  if oracle_asked cap env st
  then match await_json (oracle_reply env) with
       | Resolved _ => None
       | Rejected e => Some e
       end
  else None.

(** The Trade Executor was invoked in a run of the cycle. *)
Definition trade_submitted (cap : AppState) (env : CycleEnv) (st : AppState) : bool :=
  existsb is_trade (snd (runTradingCycle cap env st)).

(** Some order submission in [evs] is followed by a call of
    [refreshAccountData()]. *)
Fixpoint refresh_after_trade (evs : list Event) : bool :=
  match evs with
  | [] => false
  | EvPostTrade _ :: rest => existsb is_refresh rest || refresh_after_trade rest
  | _ :: rest => refresh_after_trade rest
  end.

(** The state after the oracle has answered [d] with an action other
    than WAIT: the decision is stored and the TRADE entry is logged. *)
Definition after_decision (clk : Clock) (d : TradeAction) (st : AppState) : AppState :=
  addLog clk LogType.TRADE (decision_message d)
         (setLastAction (Some d) (setIsAnalyzing true st)).

(** The events of [refreshAccountData()] called from the cycle. *)
Definition refresh_events (cap st : AppState) : list Event :=
  EvRefreshAccountData :: match snd (refreshAccountData_start cap st) with
                          | Some r => [EvPostAccount r]
                          | None => []
                          end.

(** The six ways through one cycle. *)
Inductive CyclePath (cap : AppState) (env : CycleEnv) (st : AppState)
  : AppState * list Event -> Prop :=
| path_guard :
    isAutoTrading (settings cap) = false \/ marketData cap = None ->
    CyclePath cap env st (st, [])
| path_oracle_throws md e :
    isAutoTrading (settings cap) = true ->
    marketData cap = Some md ->
    await_json (oracle_reply env) = Rejected e ->
    CyclePath cap env st
      (runTradingCycle_catch (oracle_clock env) e (setIsAnalyzing true st),
       [EvPostAnalyze (analyze_body cap md)])
| path_wait md d :
    isAutoTrading (settings cap) = true ->
    marketData cap = Some md ->
    await_json (oracle_reply env) = Resolved d ->
    action d = "WAIT" ->
    CyclePath cap env st
      (setIsAnalyzing false (setLastAction (Some d) (setIsAnalyzing true st)),
       [EvPostAnalyze (analyze_body cap md)])
| path_simulated md d :
    isAutoTrading (settings cap) = true ->
    marketData cap = Some md ->
    await_json (oracle_reply env) = Resolved d ->
    action d <> "WAIT" ->
    isLiveMode (settings cap) = false ->
    CyclePath cap env st
      (setIsAnalyzing false (after_decision (oracle_clock env) d st),
       [EvPostAnalyze (analyze_body cap md)])
| path_order_accepted md d r :
    isAutoTrading (settings cap) = true ->
    marketData cap = Some md ->
    await_json (oracle_reply env) = Resolved d ->
    action d <> "WAIT" ->
    isLiveMode (settings cap) = true ->
    trade_reply env = Resolved r ->
    CyclePath cap env st
      (setIsAnalyzing false
         (fst (refreshAccountData_start cap (after_decision (oracle_clock env) d st))),
       EvPostAnalyze (analyze_body cap md) :: EvPostTrade (trade_body cap md d)
         :: refresh_events cap (after_decision (oracle_clock env) d st))
| path_order_throws md d e :
    isAutoTrading (settings cap) = true ->
    marketData cap = Some md ->
    await_json (oracle_reply env) = Resolved d ->
    action d <> "WAIT" ->
    isLiveMode (settings cap) = true ->
    trade_reply env = Rejected e ->
    CyclePath cap env st
      (runTradingCycle_catch (trade_clock env) e (after_decision (oracle_clock env) d st),
       [EvPostAnalyze (analyze_body cap md); EvPostTrade (trade_body cap md d)]).

(* ================================================================== *)
(** ** Decision cycle scheduler: the auto-trading [useEffect] *)
(* ================================================================== *)

(** A cycle suspended at an await, with the render its closure holds. *)
Inductive Pending : Type :=
| AwaitAnalyze (cap : AppState) (md : MarketData)
| AwaitTrade (cap : AppState).

(** The component as the scheduler sees it: the current state, the
    interval armed by the effect (with the render that its
    [runTradingCycle] closure holds), the cycles in flight, and
    everything sent so far. *)
Record Sched : Type := mkSched {
  app : AppState;
  timer : option AppState;
  inflight : list Pending;
  sent : list Event
}.

Definition in_flight (s : Sched) : nat := List.length (inflight s).

(** A call of [runTradingCycle()] from the closure of render [cap]. *)
Definition start_cycle (cap : AppState) (s : Sched) : Sched :=
  let '(st, evs, k) := runTradingCycle_start cap (app s) in
  {| app := st;
     timer := timer s;
     inflight := (inflight s ++ match k with
                                | Some md => [AwaitAnalyze cap md]
                                | None => []
                                end)%list;
     sent := (sent s ++ evs)%list |}.

(** The effect after a render in which one of its dependencies changed:
    the cleanup of the previous run clears the interval, then the body
    runs with the closures of the current render. *)
Definition effect_run (s : Sched) : Sched :=
  let render := app s in
  if isAutoTrading (settings render) then
    let s1 := start_cycle render s in
    {| app := app s1; timer := Some render; inflight := inflight s1; sent := sent s1 |}
  else
    {| app := app s; timer := None; inflight := inflight s; sent := sent s |}.

(** The entry at index [i] replaced by the entries [new]. *)
Definition replace_at {A : Type} (i : nat) (new : list A) (l : list A) : list A :=
  (firstn i l ++ new ++ skipn (S i) l)%list.

(** What can happen to the mounted component.  React runs [EffectRun]
    after every render in which [settings.isAutoTrading],
    [settings.intervalMinutes] or [runTradingCycle] changed, that is,
    after [settings], [mexcPositions], [marketData] or the login flag
    changed; here it is an event of its own. *)
Inductive SchedEvent : Type :=
| EffectRun
| TimerFire
| AnalyzeReply (i : nat) (clk : Clock) (reply : Outcome (Response TradeAction))
| TradeReply (i : nat) (clk : Clock) (reply : Outcome (Response string))
| SettingsChange (s' : AppSettings)
| MarketReply (currentTime : string) (reply : Outcome (Response Ticker))
| AccountReply (clk : Clock) (reply : Outcome (Response AccountPayload)).

Definition with_app (st : AppState) (s : Sched) : Sched :=
  {| app := st; timer := timer s; inflight := inflight s; sent := sent s |}.

Definition step (s : Sched) (e : SchedEvent) : Sched :=
  match e with
  | EffectRun => effect_run s
  | TimerFire =>
      match timer s with
      | Some cap => start_cycle cap s
      | None => s
      end
  | AnalyzeReply i clk reply =>
      match nth_error (inflight s) i with
      | Some (AwaitAnalyze cap md) =>
          let '(st, evs, suspended) :=
            runTradingCycle_onAnalyze cap md clk reply (app s) in
          {| app := st;
             timer := timer s;
             inflight := replace_at i (if suspended then [AwaitTrade cap] else [])
                                    (inflight s);
             sent := (sent s ++ evs)%list |}
      | _ => s
      end
  | TradeReply i clk reply =>
      match nth_error (inflight s) i with
      | Some (AwaitTrade cap) =>
          let '(st, evs) := runTradingCycle_onTrade cap clk reply (app s) in
          {| app := st;
             timer := timer s;
             inflight := replace_at i [] (inflight s);
             sent := (sent s ++ evs)%list |}
      | _ => s
      end
  | SettingsChange s' => with_app (setSettings (fun _ => s') (app s)) s
  | MarketReply currentTime reply =>
      with_app (refreshMarket (app s) currentTime reply (app s)) s
  | AccountReply clk reply =>
      with_app (refreshAccountData_resume clk reply (app s)) s
  end.

Definition run (evs : list SchedEvent) (s : Sched) : Sched :=
  fold_left step evs s.

(** The component after its first render and the first run of the
    effect. *)
Definition mount (loaded : AppSettings) : Sched :=
  effect_run {| app := initialState loaded; timer := None; inflight := []; sent := [] |}.

(** The events that call [runTradingCycle()]. *)
Definition calls_cycle (e : SchedEvent) : bool :=
  match e with
  | EffectRun | TimerFire => true
  | _ => false
  end.


(* ================================================================== *)
(** ** Settings inputs: the [onChange] handlers *)
(* ================================================================== *)

Definition with_intervalMinutes (v : Z) (s : AppSettings) : AppSettings :=
  mkSettings (aiProvider s) (geminiApiKey s) (openaiApiKey s) (deepseekApiKey s)
             (mexcApiKey s) (mexcSecretKey s) (tradingSymbol s) (defaultLeverage s)
             (riskPercent s) (isAutoTrading s) v (isLiveMode s)
             (supabaseUrl s) (supabaseAnonKey s).

Definition with_defaultLeverage (v : Z) (s : AppSettings) : AppSettings :=
  mkSettings (aiProvider s) (geminiApiKey s) (openaiApiKey s) (deepseekApiKey s)
             (mexcApiKey s) (mexcSecretKey s) (tradingSymbol s) v
             (riskPercent s) (isAutoTrading s) (intervalMinutes s) (isLiveMode s)
             (supabaseUrl s) (supabaseAnonKey s).

Definition with_riskPercent (v : Z) (s : AppSettings) : AppSettings :=
  mkSettings (aiProvider s) (geminiApiKey s) (openaiApiKey s) (deepseekApiKey s)
             (mexcApiKey s) (mexcSecretKey s) (tradingSymbol s) (defaultLeverage s)
             v (isAutoTrading s) (intervalMinutes s) (isLiveMode s)
             (supabaseUrl s) (supabaseAnonKey s).

Definition with_isAutoTrading (b : bool) (s : AppSettings) : AppSettings :=
  mkSettings (aiProvider s) (geminiApiKey s) (openaiApiKey s) (deepseekApiKey s)
             (mexcApiKey s) (mexcSecretKey s) (tradingSymbol s) (defaultLeverage s)
             (riskPercent s) b (intervalMinutes s) (isLiveMode s)
             (supabaseUrl s) (supabaseAnonKey s).

(** [onChange] of the interval input. *)
Definition onChange_interval (value : string) (s : AppSettings) : AppSettings :=
  with_intervalMinutes (Z.max 1 (num_or (parseInt value) 1)) s.

(** [onChange] of the leverage input. *)
Definition onChange_leverage (value : string) (s : AppSettings) : AppSettings :=
  with_defaultLeverage (Z.min 125 (Z.max 1 (num_or (parseInt value) 1))) s.

(** [onChange] of the risk-percent input. *)
Definition onChange_riskPercent (value : string) (s : AppSettings) : AppSettings :=
  with_riskPercent (Z.min 100 (Z.max 1 (num_or (parseInt value) 1))) s.

(** [onClick] of the auto-trading button. *)
Definition toggleAutoTrading (s : AppSettings) : AppSettings :=
  with_isAutoTrading (negb (isAutoTrading s)) s.

(** An input that does not begin with a number: after leading white
    space and one optional sign, nothing is left or the next character
    is not a decimal digit. *)
Definition non_numeric (value : string) : bool :=
  match snd (stripSign (trimStart value)) with
  | EmptyString => true
  | String c _ => negb (isDecimalDigit c)
  end.

(* ================================================================== *)
(** ** Concrete data used by the examples *)
(* ================================================================== *)

Definition clk0 : Clock := {| dateNow := 1700000000000; localeTime := "10:00:00 AM" |}.
Definition clk1 : Clock := {| dateNow := 1700000005000; localeTime := "10:00:05 AM" |}.

Definition btc_ticker : Ticker :=
  {| ticker_price := 67000 # 1; ticker_change24h := 3 # 2 |}.

Definition ticker_ok : Outcome (Response Ticker) :=
  Resolved {| ok := true; json := Resolved btc_ticker |}.

Definition btc_market : MarketData :=
  {| price := 67000 # 1; change24h := 3 # 2;
     history := [ {| time := "10:00:00"; point_price := 67000 # 1 |} ] |}.

Definition long80 : TradeAction :=
  {| action := "LONG"; confidence := 80; reason := "momentum" |}.

Definition oracle_long80 : Outcome (Response TradeAction) :=
  Resolved {| ok := true; json := Resolved long80 |}.

(** The settings of the scenario: BTCUSDT, auto-trading on, simulation
    mode, interval one minute. *)
Definition sim_settings : AppSettings := with_isAutoTrading true defaultSettings.

(** The same with live mode on and exchange credentials set. *)
Definition live_settings : AppSettings :=
  mkSettings gemini "g-key" "" "" "api-key" "secret-key" "BTCUSDT" 10 2 true 1 true "" "".

(** A logged-in render with a market snapshot. *)
Definition render_with (s : AppSettings) : AppState :=
  setIsLoggedIn true (setMarketData (fun _ => Some btc_market) (initialState s)).

Definition trade_accepted : Outcome (Response string) :=
  Resolved {| ok := true; json := Resolved "{}" |}.

Definition trade_refused : Outcome (Response string) :=
  Rejected (ErrorObj "400: insufficient balance").

(** The oracle answers LONG/80; the exchange accepts, or refuses, the
    order. *)
Definition env_accepted : CycleEnv :=
  {| oracle_reply := oracle_long80; oracle_clock := clk0;
     trade_reply := trade_accepted; trade_clock := clk1 |}.

Definition env_refused : CycleEnv :=
  {| oracle_reply := oracle_long80; oracle_clock := clk0;
     trade_reply := trade_refused; trade_clock := clk1 |}.

(** The oracle call throws. *)
Definition env_oracle_down : CycleEnv :=
  {| oracle_reply := Rejected (ErrorObj "500: upstream timeout"); oracle_clock := clk0;
     trade_reply := trade_accepted; trade_clock := clk1 |}.

(** The operator turns auto-trading on once a market snapshot is there,
    the first cycle is suspended on the oracle, and the interval fires. *)
Definition overlap_trace : list SchedEvent :=
  [ MarketReply "10:00:00" ticker_ok; EffectRun;
    SettingsChange sim_settings; EffectRun;
    TimerFire ].

(** The same, but the oracle answers before the interval fires. *)
Definition spaced_trace : list SchedEvent :=
  [ MarketReply "10:00:00" ticker_ok; EffectRun;
    SettingsChange sim_settings; EffectRun;
    AnalyzeReply 0 clk0 oracle_long80;
    TimerFire ].

(** A successful and a failed tick of the poller. *)
Definition tick_good : MarketTick :=
  {| tick_cap := initialState defaultSettings; tick_time := "10:00:00"; tick_reply := ticker_ok |}.

Definition tick_bad : MarketTick :=
  {| tick_cap := initialState defaultSettings; tick_time := "10:00:05";
     tick_reply := Rejected (ErrorObj "Failed to fetch") |}.

(** Replies of the account endpoint: an error body with status 2xx, a
    full body, and a body that only has positions. *)
Definition usdt : MexcBalance := {| asset := "USDT"; total := "120.5"; available := "100" |}.

Definition btc_long : Position :=
  {| pos_symbol := "BTCUSDT"; side := "LONG"; pos_leverage := 10;
     entryPrice := 66000 # 1; pos_pnl := 25 # 2 |}.

Definition account_error_body : Outcome (Response AccountPayload) :=
  Resolved {| ok := true;
              json := Resolved (mkPayload (Some "Invalid API key") None None None None None) |}.

Definition account_positions_only : AccountPayload :=
  mkPayload None None None (Some [btc_long]) None None.

Definition account_partial_body : Outcome (Response AccountPayload) :=
  Resolved {| ok := true; json := Resolved account_positions_only |}.

(** A logged-in state that already holds a balance. *)
Definition synced_state : AppState :=
  setSpotBalances [usdt] (render_with live_settings).

(* ================================================================== *)
(** ** The rest of the component *)
(* ================================================================== *)

(** *** The account [useEffect] *)

(** The condition under which the effect calls the synchronizer and
    arms its interval. *)
Definition account_effect_ready (render : AppState) : bool :=
  isLoggedIn render
  && truthy (mexcApiKey (settings render))
  && truthy (mexcSecretKey (settings render)).

(** One call of [refreshAccountData()] from the closure of [render], up
    to its first await. *)
Definition call_refreshAccountData (render st : AppState) : AppState * list Event :=
  let '(st1, req) := refreshAccountData_start render st in
  (st1, EvRefreshAccountData :: match req with
                                | Some r => [EvPostAccount r]
                                | None => []
                                end).

(** The effect after a render in which one of its dependencies changed:
    the state, what was sent, and the closure held by the interval it
    armed, if any. *)
Definition account_effect (render st : AppState)
  : AppState * list Event * option AppState :=
  if account_effect_ready render then
    let '(st1, evs) := call_refreshAccountData render st in
    (st1, evs, Some render)
  else (st, [], None).

(** *** Login and logout *)

Record LoginUi : Type := mkLoginUi {
  ui_app : AppState;
  username : string;
  password : string;
  loginError : string
}.

Definition handleLogin (clk : Clock) (ui : LoginUi) : LoginUi :=
  if ((username ui =? "admin") && (password ui =? "666666"))%string then
    {| ui_app := addLog clk LogType.SUCCESS "Login successful"
                        (setIsLoggedIn true (ui_app ui));
       username := username ui;
       password := password ui;
       loginError := "" |}
  else
    {| ui_app := ui_app ui;
       username := username ui;
       password := password ui;
       loginError := "Invalid credentials." |}.

(** [onClick] of the sign-out button. *)
Definition handleLogout (st : AppState) : AppState := setIsLoggedIn false st.

(** *** The other settings inputs *)

Definition provider_eqb (a b : AIProvider) : bool :=
  match a, b with
  | gemini, gemini | openai, openai | deepseek, deepseek => true
  | _, _ => false
  end.

(** [onValueChange] of the provider select. *)
Definition onValueChange_aiProvider (v : AIProvider) (s : AppSettings) : AppSettings :=
  mkSettings v (geminiApiKey s) (openaiApiKey s) (deepseekApiKey s)
             (mexcApiKey s) (mexcSecretKey s) (tradingSymbol s) (defaultLeverage s)
             (riskPercent s) (isAutoTrading s) (intervalMinutes s) (isLiveMode s)
             (supabaseUrl s) (supabaseAnonKey s).

(** [onChange] of the AI key input. *)
Definition onChange_aiKey (value : string) (s : AppSettings) : AppSettings :=
  mkSettings (aiProvider s)
             (if provider_eqb (aiProvider s) gemini then value else geminiApiKey s)
             (if provider_eqb (aiProvider s) openai then value else openaiApiKey s)
             (if provider_eqb (aiProvider s) deepseek then value else deepseekApiKey s)
             (mexcApiKey s) (mexcSecretKey s) (tradingSymbol s) (defaultLeverage s)
             (riskPercent s) (isAutoTrading s) (intervalMinutes s) (isLiveMode s)
             (supabaseUrl s) (supabaseAnonKey s).

(** The [value] shown by the AI key input. *)
Definition aiKey_value (s : AppSettings) : string :=
  if provider_eqb (aiProvider s) gemini then geminiApiKey s
  else if provider_eqb (aiProvider s) openai then openaiApiKey s
  else deepseekApiKey s.

(** The key stored for a provider. *)
Definition key_of (p : AIProvider) (s : AppSettings) : string :=
  match p with
  | gemini => geminiApiKey s
  | openai => openaiApiKey s
  | deepseek => deepseekApiKey s
  end.

(** [onValueChange] of the trading-mode select. *)
Definition onValueChange_mode (v : string) (s : AppSettings) : AppSettings :=
  mkSettings (aiProvider s) (geminiApiKey s) (openaiApiKey s) (deepseekApiKey s)
             (mexcApiKey s) (mexcSecretKey s) (tradingSymbol s) (defaultLeverage s)
             (riskPercent s) (isAutoTrading s) (intervalMinutes s) (v =? "live")%string
             (supabaseUrl s) (supabaseAnonKey s).

(** The [value] shown by the trading-mode select. *)
Definition mode_value (s : AppSettings) : string :=
  if isLiveMode s then "live" else "sim".

Definition onChange_mexcApiKey (value : string) (s : AppSettings) : AppSettings :=
  mkSettings (aiProvider s) (geminiApiKey s) (openaiApiKey s) (deepseekApiKey s)
             value (mexcSecretKey s) (tradingSymbol s) (defaultLeverage s)
             (riskPercent s) (isAutoTrading s) (intervalMinutes s) (isLiveMode s)
             (supabaseUrl s) (supabaseAnonKey s).

Definition onChange_mexcSecretKey (value : string) (s : AppSettings) : AppSettings :=
  mkSettings (aiProvider s) (geminiApiKey s) (openaiApiKey s) (deepseekApiKey s)
             (mexcApiKey s) value (tradingSymbol s) (defaultLeverage s)
             (riskPercent s) (isAutoTrading s) (intervalMinutes s) (isLiveMode s)
             (supabaseUrl s) (supabaseAnonKey s).

(** [onChange] of the symbol input; [upperCased] is
    [e.target.value.toUpperCase()]. *)
Definition onChange_tradingSymbol (upperCased : string) (s : AppSettings) : AppSettings :=
  mkSettings (aiProvider s) (geminiApiKey s) (openaiApiKey s) (deepseekApiKey s)
             (mexcApiKey s) (mexcSecretKey s) upperCased (defaultLeverage s)
             (riskPercent s) (isAutoTrading s) (intervalMinutes s) (isLiveMode s)
             (supabaseUrl s) (supabaseAnonKey s).

Definition onChange_supabaseUrl (value : string) (s : AppSettings) : AppSettings :=
  mkSettings (aiProvider s) (geminiApiKey s) (openaiApiKey s) (deepseekApiKey s)
             (mexcApiKey s) (mexcSecretKey s) (tradingSymbol s) (defaultLeverage s)
             (riskPercent s) (isAutoTrading s) (intervalMinutes s) (isLiveMode s)
             value (supabaseAnonKey s).

Definition onChange_supabaseAnonKey (value : string) (s : AppSettings) : AppSettings :=
  mkSettings (aiProvider s) (geminiApiKey s) (openaiApiKey s) (deepseekApiKey s)
             (mexcApiKey s) (mexcSecretKey s) (tradingSymbol s) (defaultLeverage s)
             (riskPercent s) (isAutoTrading s) (intervalMinutes s) (isLiveMode s)
             (supabaseUrl s) value.

(** One use of a control that writes the settings. *)
Inductive SettingsEdit : Type :=
| EditProvider (v : AIProvider)
| EditAiKey (value : string)
| EditMode (v : string)
| EditMexcApiKey (value : string)
| EditMexcSecretKey (value : string)
| EditSymbol (upperCased : string)
| EditInterval (value : string)
| EditLeverage (value : string)
| EditRiskPercent (value : string)
| EditSupabaseUrl (value : string)
| EditSupabaseAnonKey (value : string)
| ToggleAutoTrading.

Definition apply_edit (s : AppSettings) (e : SettingsEdit) : AppSettings :=
  match e with
  | EditProvider v => onValueChange_aiProvider v s
  | EditAiKey value => onChange_aiKey value s
  | EditMode v => onValueChange_mode v s
  | EditMexcApiKey value => onChange_mexcApiKey value s
  | EditMexcSecretKey value => onChange_mexcSecretKey value s
  | EditSymbol upperCased => onChange_tradingSymbol upperCased s
  | EditInterval value => onChange_interval value s
  | EditLeverage value => onChange_leverage value s
  | EditRiskPercent value => onChange_riskPercent value s
  | EditSupabaseUrl value => onChange_supabaseUrl value s
  | EditSupabaseAnonKey value => onChange_supabaseAnonKey value s
  | ToggleAutoTrading => toggleAutoTrading s
  end.

Definition apply_edits (edits : list SettingsEdit) (s : AppSettings) : AppSettings :=
  fold_left apply_edit edits s.

(** The documented ranges of the three numeric settings. *)
Definition in_bounds (s : AppSettings) : Prop :=
  1 <= defaultLeverage s <= 125
  /\ 1 <= riskPercent s <= 100
  /\ 1 <= intervalMinutes s.

(** *** What each task leaves alone *)

(** [st'] differs from [st] at most in the cells the decision cycle
    writes: the decision, the analysing flag, the ledger and the
    exchange status. *)
Definition untouched_by_cycle (st st' : AppState) : Prop :=
  isLoggedIn st' = isLoggedIn st
  /\ settings st' = settings st
  /\ marketData st' = marketData st
  /\ accountState st' = accountState st
  /\ isLoading st' = isLoading st.

(** [st'] differs from [st] at most in the market snapshot and the
    loading flag. *)
Definition untouched_by_poller (st st' : AppState) : Prop :=
  isLoggedIn st' = isLoggedIn st
  /\ settings st' = settings st
  /\ accountState st' = accountState st
  /\ logs st' = logs st
  /\ lastAction st' = lastAction st
  /\ isAnalyzing st' = isAnalyzing st
  /\ mexcStatus st' = mexcStatus st.

(** [st'] differs from [st] at most in the account collections, the
    exchange status and the ledger. *)
Definition untouched_by_sync (st st' : AppState) : Prop :=
  isLoggedIn st' = isLoggedIn st
  /\ settings st' = settings st
  /\ marketData st' = marketData st
  /\ lastAction st' = lastAction st
  /\ isLoading st' = isLoading st
  /\ isAnalyzing st' = isAnalyzing st.

(** The price of the snapshot is the price of the newest point. *)
Definition price_matches_history (st : AppState) : Prop :=
  match marketData st with
  | None => True
  | Some md => exists older t, history md = (older ++ [mkPoint t (price md)])%list
  end.

(** *** Measures on the scheduler *)

(** How many elements of [l] satisfy [p]. *)
Definition count {A : Type} (p : A -> bool) (l : list A) : nat :=
  List.length (filter p l).

Definition awaits_analyze (p : Pending) : bool :=
  match p with AwaitAnalyze _ _ => true | AwaitTrade _ => false end.

Definition awaits_trade (p : Pending) : bool :=
  match p with AwaitTrade _ => true | AwaitAnalyze _ _ => false end.

(** The render held by the closure of a suspended cycle. *)
Definition pending_cap (p : Pending) : AppState :=
  match p with
  | AwaitAnalyze cap _ => cap
  | AwaitTrade cap => cap
  end.

Definition is_effect_run (e : SchedEvent) : bool :=
  match e with EffectRun => true | _ => false end.

(** The event does not switch live mode on. *)
Definition keeps_simulation (e : SchedEvent) : bool :=
  match e with
  | SettingsChange s' => negb (isLiveMode s')
  | _ => true
  end.

(** The settings after the changes in [evs], starting from [init]. *)
Fixpoint last_settings (evs : list SchedEvent) (init : AppSettings) : AppSettings :=
  match evs with
  | [] => init
  | SettingsChange s' :: rest => last_settings rest s'
  | _ :: rest => last_settings rest init
  end.

(** The two caps of the component hold in a state. *)
Definition within_caps (st : AppState) : Prop :=
  (List.length (logs st) <= 100)%nat /\ (List.length (history_of st) <= 50)%nat.

(** Live mode is off everywhere the scheduler can read it: in the
    current settings, in the closure of the armed interval and in the
    closures of the cycles in flight; and no order has been sent. *)
Definition simulated (s : Sched) : Prop :=
  isLiveMode (settings (app s)) = false
  /\ (forall cap, timer s = Some cap -> isLiveMode (settings cap) = false)
  /\ Forall (fun p => isLiveMode (settings (pending_cap p)) = false) (inflight s)
  /\ existsb is_trade (sent s) = false.

(** The books of the scheduler: every order sent and every cycle still
    waiting for the oracle has its own oracle request; every call of
    the synchronizer and every cycle still waiting for the exchange has
    its own order. *)
Definition balanced (s : Sched) : Prop :=
  (count is_trade (sent s) + count awaits_analyze (inflight s)
   <= count is_analyze (sent s))%nat
  /\ (count is_refresh (sent s) + count awaits_trade (inflight s)
      <= count is_trade (sent s))%nat.

(** No event of [evs] is a run of the effect. *)
Definition no_effect_run (evs : list SchedEvent) : bool :=
  forallb (fun e => negb (is_effect_run e)) evs.

(** The event is a reply to a cycle in flight. *)
Definition is_cycle_reply (e : SchedEvent) : bool :=
  match e with
  | AnalyzeReply _ _ _ | TradeReply _ _ _ => true
  | _ => false
  end.

(** No event of [evs] is a reply to a cycle in flight. *)
Definition no_cycle_reply (evs : list SchedEvent) : bool :=
  forallb (fun e => negb (is_cycle_reply e)) evs.

(** *** More concrete data *)

(** The operator switches back to simulation, with auto-trading off,
    while a live cycle waits for the oracle; then the oracle answers. *)
Definition late_answer_trace : list SchedEvent :=
  [ MarketReply "10:00:00" ticker_ok; EffectRun;
    SettingsChange live_settings; EffectRun;
    SettingsChange defaultSettings; EffectRun;
    AnalyzeReply 0 clk0 oracle_long80 ].

Definition wait50 : TradeAction :=
  {| action := "WAIT"; confidence := 50; reason := "flat" |}.

Definition env_wait : CycleEnv :=
  {| oracle_reply := Resolved {| ok := true; json := Resolved wait50 |};
     oracle_clock := clk0;
     trade_reply := trade_accepted; trade_clock := clk1 |}.

Definition admin_form (st : AppState) : LoginUi :=
  {| ui_app := st; username := "admin"; password := "666666"; loginError := "" |}.

(* ================================================================== *)
(** * Properties *)
(* ================================================================== *)

(** ** [slice] on the two shapes the component uses *)

Lemma slice_front {A : Type} (n : nat) (l : list A) :
  slice 0 (Some (Z.of_nat n)) l = firstn n l.
Proof.
  unfold slice, rel_index. cbn [Z.ltb Z.compare].
  assert (H0 : (Z.of_nat n <? 0) = false) by (apply Z.ltb_ge; lia).
  rewrite H0.
  replace (Z.to_nat (Z.min 0 (Z.of_nat (List.length l)))) with 0%nat by lia.
  cbn [skipn].
  destruct (Nat.le_gt_cases (List.length l) n) as [Hle | Hgt].
  - rewrite (firstn_all2 l Hle). apply firstn_all2. lia.
  - f_equal. lia.
Qed.

Lemma slice_back {A : Type} (n : nat) (l : list A) :
  (0 < n)%nat -> slice (- Z.of_nat n) None l = most_recent n l.
Proof.
  intros Hn. unfold slice, rel_index, most_recent.
  assert (H0 : (- Z.of_nat n <? 0) = true) by (apply Z.ltb_lt; lia).
  rewrite H0.
  set (len := List.length l).
  replace (Z.to_nat (Z.max (Z.of_nat len + - Z.of_nat n) 0)) with (len - n)%nat by lia.
  apply firstn_all2. rewrite length_skipn. fold len. lia.
Qed.

Lemma slice_100 {A : Type} (l : list A) : slice 0 (Some 100) l = firstn 100 l.
Proof. exact (slice_front 100 l). Qed.

Lemma slice_last50 {A : Type} (l : list A) : slice (-50) None l = most_recent 50 l.
Proof. apply (slice_back 50 l). lia. Qed.

Lemma firstn_cons_congr {A : Type} (n : nat) (x : A) (l l' : list A) :
  firstn n l = firstn n l' -> firstn n (x :: l) = firstn n (x :: l').
Proof.
  destruct n as [| m]; [reflexivity |]. intros H. cbn [firstn]. f_equal.
  assert (Hm : forall k : list A, firstn m k = firstn m (firstn (S m) k)).
  { intros k. rewrite firstn_firstn. f_equal. lia. }
  rewrite (Hm l), (Hm l'), H. reflexivity.
Qed.

Lemma most_recent_length {A : Type} (n : nat) (l : list A) :
  (List.length (most_recent n l) <= n)%nat.
Proof. unfold most_recent. rewrite length_skipn. lia. Qed.

Lemma most_recent_short {A : Type} (n : nat) (l : list A) :
  (List.length l <= n)%nat -> most_recent n l = l.
Proof.
  intros H. unfold most_recent.
  replace (List.length l - n)%nat with 0%nat by lia. reflexivity.
Qed.

(** Evicting early does not change what the window holds later. *)
Lemma most_recent_app {A : Type} (n : nat) (l r : list A) :
  most_recent n (most_recent n l ++ r) = most_recent n (l ++ r).
Proof.
  destruct (Nat.le_gt_cases (List.length l) n) as [Hle | Hgt].
  - rewrite (most_recent_short n l Hle). reflexivity.
  - unfold most_recent.
    rewrite !skipn_app, !length_app, !length_skipn, skipn_skipn.
    f_equal; f_equal; lia.
Qed.

(** ** Projections of the setters *)

Lemma logs_addLog clk ty msg st :
  logs (addLog clk ty msg st) = firstn 100 (entry_of clk ty msg :: logs st).
Proof. unfold addLog. cbn [logs setLogs]. apply slice_100. Qed.

Lemma logs_addLog_length clk ty msg st :
  (List.length (logs (addLog clk ty msg st)) <= 100)%nat.
Proof. rewrite logs_addLog. apply firstn_le_length. Qed.

Lemma accountState_addLog clk ty msg st :
  accountState (addLog clk ty msg st) = accountState st.
Proof. reflexivity. Qed.

(** ** Event ledger *)

Lemma emitted_congr (ops : list LedgerOp) :
  forall old old' : list TradingLog,
    firstn 100 old = firstn 100 old' ->
    firstn 100 (emitted_newest_first ops old) = firstn 100 (emitted_newest_first ops old').
Proof.
  induction ops as [| op rest IH]; intros old old' H; cbn [emitted_newest_first].
  - exact H.
  - destruct op as [clk ty msg |]; [| reflexivity].
    apply IH. apply firstn_cons_congr. exact H.
Qed.

Lemma ledger_run_logs (ops : list LedgerOp) :
  forall st : AppState,
    (List.length (logs st) <= 100)%nat ->
    logs (ledger_run ops st) = firstn 100 (emitted_newest_first ops (logs st)).
Proof.
  unfold ledger_run.
  induction ops as [| op rest IH]; intros st Hlen; cbn [fold_left emitted_newest_first].
  - symmetry. apply firstn_all2. exact Hlen.
  - destruct op as [clk ty msg |]; cbn [ledger_step].
    + rewrite IH by apply logs_addLog_length.
      rewrite logs_addLog. apply emitted_congr.
      rewrite firstn_firstn. f_equal.
    + rewrite IH by (cbn; lia). reflexivity.
Qed.

Lemma emitted_emissions (ems : list Emission) :
  forall old : list TradingLog,
    emitted_newest_first (map emit ems) old = (rev (map entry ems) ++ old)%list.
Proof.
  induction ems as [| [[clk ty] msg] rest IH]; intros old; [reflexivity |].
  cbn [map emit entry emitted_newest_first rev]. rewrite IH, <- app_assoc. reflexivity.
Qed.

(** C6. Whatever the sequence of emissions, the ledger holds at most
    100 entries and they are the 100 most recent, newest first; the
    same holds with presses of the clear button in between, counting
    the emissions since the last press; one emission puts the new entry
    in front and keeps the first 100; the clear button leaves the ledger
    empty. *)
Theorem ledger_capped_newest_first
        (ems : list Emission) (ops : list LedgerOp) (loaded : AppSettings) :
  logs (ledger_run (map emit ems) (initialState loaded))
  = firstn 100 (rev (map entry ems))
  /\ logs (ledger_run ops (initialState loaded))
     = firstn 100 (emitted_newest_first ops [])
  /\ (List.length (logs (ledger_run ops (initialState loaded))) <= 100)%nat
  /\ (forall clk ty msg st,
         logs (addLog clk ty msg st) = firstn 100 (entry_of clk ty msg :: logs st))
  /\ (forall st, logs (clearLogs st) = []).
Proof.
  assert (H : forall o, logs (ledger_run o (initialState loaded))
                        = firstn 100 (emitted_newest_first o [])).
  { intros o. rewrite ledger_run_logs by (cbn; lia). reflexivity. }
  split; [rewrite H, emitted_emissions, app_nil_r; reflexivity |].
  split; [apply H |]. split.
  - rewrite H. apply firstn_le_length.
  - split; [intros; apply logs_addLog | reflexivity].
Qed.

Example ledger_two_emissions_then_clear :
  map message
      (logs (ledger_run [Emit clk0 LogType.INFO "a"; Emit clk1 LogType.ERROR "b"]
                        (initialState defaultSettings))) = ["b"; "a"]
  /\ logs (ledger_run [Emit clk0 LogType.INFO "a"; Clear] (initialState defaultSettings)) = [].
Proof. split; reflexivity. Qed.

(** ** Market poller *)

Lemma history_market_step (st : AppState) (t : MarketTick) :
  history_of (market_step st t)
  = match tick_point t with
    | Some p => most_recent 50 (history_of st ++ [p])
    | None => history_of st
    end.
Proof.
  unfold market_step, refreshMarket, tick_point, refreshMarket_catch.
  destruct (tick_reply t) as [response | e].
  - destruct (ok response); cbn [negb].
    + destruct (json response) as [ticker | e].
      * assert (H : history_of (setMarketData (mergeTicker (tick_time t) ticker) st)
                    = most_recent 50
                        (history_of st
                           ++ [ {| time := tick_time t; point_price := ticker_price ticker |} ])).
        { unfold history_of, mergeTicker. cbn [marketData setMarketData history].
          rewrite slice_last50. reflexivity. }
        destruct (isLoading (tick_cap t)); exact H.
      * destruct (isLoading (tick_cap t)); reflexivity.
    + destruct (isLoading (tick_cap t)); reflexivity.
  - destruct (isLoading (tick_cap t)); reflexivity.
Qed.

Lemma failed_tick_keeps_snapshot (st : AppState) (t : MarketTick) :
  tick_point t = None -> marketData (market_step st t) = marketData st.
Proof.
  unfold market_step, refreshMarket, tick_point, refreshMarket_catch.
  destruct (tick_reply t) as [response | e].
  - destruct (ok response); cbn [negb].
    + destruct (json response) as [ticker | e]; [discriminate |].
      intros _. destruct (isLoading (tick_cap t)); reflexivity.
    + intros _. destruct (isLoading (tick_cap t)); reflexivity.
  - intros _. destruct (isLoading (tick_cap t)); reflexivity.
Qed.

Lemma market_run_history (ticks : list MarketTick) :
  forall st : AppState,
    (List.length (history_of st) <= 50)%nat ->
    history_of (market_run ticks st)
    = most_recent 50 (history_of st ++ successful_points ticks).
Proof.
  unfold market_run.
  induction ticks as [| t rest IH]; intros st Hlen; cbn [fold_left successful_points].
  - rewrite app_nil_r. symmetry. apply most_recent_short. exact Hlen.
  - pose proof (history_market_step st t) as Hstep.
    destruct (tick_point t) as [p |].
    + rewrite IH by (rewrite Hstep; apply most_recent_length).
      rewrite Hstep, most_recent_app, <- app_assoc. reflexivity.
    + rewrite IH by (rewrite Hstep; exact Hlen).
      rewrite Hstep. reflexivity.
Qed.

(** C5. Whatever the sequence of poller ticks, the price history holds
    at most 50 points and is the 50 most recent successful fetches in
    the order they were made; a successful fetch puts its point at the
    end and evicts from the front; a failed fetch leaves the market
    snapshot as it was. *)
Theorem price_history_window (ticks : list MarketTick) (loaded : AppSettings) :
  history_of (market_run ticks (initialState loaded))
  = most_recent 50 (successful_points ticks)
  /\ (List.length (history_of (market_run ticks (initialState loaded))) <= 50)%nat
  /\ (forall st t p,
         tick_point t = Some p ->
         history_of (market_step st t) = most_recent 50 (history_of st ++ [p]))
  /\ (forall st t,
         tick_point t = None -> marketData (market_step st t) = marketData st).
Proof.
  assert (H : history_of (market_run ticks (initialState loaded))
              = most_recent 50 (successful_points ticks)).
  { rewrite market_run_history by (cbn; lia). reflexivity. }
  split; [exact H |]. split; [rewrite H; apply most_recent_length |]. split.
  - intros st t p Hp. rewrite history_market_step, Hp. reflexivity.
  - intros st t. apply failed_tick_keeps_snapshot.
Qed.

(** A successful tick on the first render and a failed tick on a render
    that has a snapshot. *)
Lemma price_history_window_witness :
  history_of (market_step (initialState defaultSettings) tick_good)
  = most_recent 50 ([] ++ [ {| time := "10:00:00"; point_price := 67000 # 1 |} ])
  /\ marketData (market_step (render_with defaultSettings) tick_bad)
     = marketData (render_with defaultSettings).
Proof.
  destruct (price_history_window [] defaultSettings) as (_ & _ & Hgood & Hbad).
  split.
  - apply (Hgood (initialState defaultSettings) tick_good). reflexivity.
  - apply (Hbad (render_with defaultSettings) tick_bad). reflexivity.
Defined.

(** Ticker fetch throws twice in a row: the snapshot stays. *)
Example two_failed_ticks :
  marketData (market_run [tick_bad; tick_bad] (render_with defaultSettings))
  = Some btc_market.
Proof. reflexivity. Qed.

(** ** Account synchronizer *)

Lemma truthy_true (s : string) : s <> "" -> truthy s = true.
Proof. destruct s; [congruence | reflexivity]. Qed.

Lemma truthy_false (s : string) : truthy s = false -> s = "".
Proof. destruct s; [reflexivity | discriminate]. Qed.

(** With a session and both credentials the guard lets the run through. *)
Lemma refreshAccountData_start_ready (cap st : AppState) :
  mexcApiKey (settings cap) <> "" ->
  mexcSecretKey (settings cap) <> "" ->
  isLoggedIn cap = true ->
  refreshAccountData_start cap st
  = (st, Some {| acc_apiKey := mexcApiKey (settings cap);
                 acc_secretKey := mexcSecretKey (settings cap);
                 acc_symbol := tradingSymbol (settings cap) |}).
Proof.
  intros Hk Hs Hl. unfold refreshAccountData_start.
  rewrite (truthy_true _ Hk), (truthy_true _ Hs), Hl. reflexivity.
Qed.

(** Without one of them the guard stops it. *)
Lemma refreshAccountData_start_blocked (cap st : AppState) :
  mexcApiKey (settings cap) = "" \/ mexcSecretKey (settings cap) = ""
  \/ isLoggedIn cap = false ->
  refreshAccountData_start cap st = (setMexcStatus Status.DISCONNECTED st, None).
Proof.
  intros H. unfold refreshAccountData_start.
  destruct H as [H | [H | H]]; rewrite H; cbn [truthy negb orb];
    rewrite ?orb_true_r; reflexivity.
Qed.

Lemma resume_fails (clk : Clock) (reply : Outcome (Response AccountPayload))
      (reason : string) (st : AppState) :
  SyncFails reply reason ->
  refreshAccountData_resume clk reply st
  = setMexcStatus Status.ERROR
      (addLog clk LogType.ERROR ("MEXC sync error: " ++ reason) st).
Proof.
  intros H. unfold refreshAccountData_resume.
  destruct H as [reply e Hrej | reply data s Hres Herr Hne].
  - rewrite Hrej. reflexivity.
  - rewrite Hres, Herr. cbn [truthy_opt]. rewrite (truthy_true s Hne). reflexivity.
Qed.

(** C4. A run of the synchronizer that sends its request and fails, by
    an exception of the request or of the reading of its body, or by a
    body with status 2xx that carries an error text, leaves the five
    collections of the account as they were, sets the connection status
    to ERROR, and puts an ERROR entry with the reason in the ledger. *)
Theorem sync_failure_keeps_account
        (cap : AppState) (clk : Clock) (reply : Outcome (Response AccountPayload))
        (reason : string) (st : AppState) :
  mexcApiKey (settings cap) <> "" ->
  mexcSecretKey (settings cap) <> "" ->
  isLoggedIn cap = true ->
  SyncFails reply reason ->
  let st' := fst (refreshAccountData cap clk reply st) in
  existsb is_account_fetch (snd (refreshAccountData cap clk reply st)) = true
  /\ accountState st' = accountState st
  /\ mexcStatus st' = Status.ERROR
  /\ logs st'
     = firstn 100 (entry_of clk LogType.ERROR ("MEXC sync error: " ++ reason) :: logs st).
Proof.
  intros Hk Hs Hl Hfail. unfold refreshAccountData.
  rewrite (refreshAccountData_start_ready cap st Hk Hs Hl).
  cbn [fst snd existsb is_account_fetch orb].
  rewrite (resume_fails clk reply reason st Hfail).
  split; [reflexivity |]. split; [reflexivity |]. split; [reflexivity |].
  cbn [logs setMexcStatus]. apply logs_addLog.
Qed.

(** The theorem at a body [{error: "Invalid API key"}] with status 200. *)
Lemma sync_failure_keeps_account_witness :
  accountState (fst (refreshAccountData synced_state clk0 account_error_body synced_state))
  = accountState synced_state
  /\ mexcStatus (fst (refreshAccountData synced_state clk0 account_error_body synced_state))
     = Status.ERROR.
Proof.
  assert (Hfail : SyncFails account_error_body "Invalid API key").
  { apply (fails_payload account_error_body
                         (mkPayload (Some "Invalid API key") None None None None None)
                         "Invalid API key");
      [reflexivity | reflexivity | discriminate]. }
  destruct (sync_failure_keeps_account synced_state clk0 account_error_body
              "Invalid API key" synced_state) as (_ & Hacc & Hstat & _);
    [discriminate | discriminate | reflexivity | exact Hfail |].
  split; [exact Hacc | exact Hstat].
Defined.

(** The same at a request that throws. *)
Example sync_network_error :
  let st' := fst (refreshAccountData synced_state clk0
                    (Rejected (ErrorObj "Failed to fetch")) synced_state) in
  spotBalances st' = [usdt]
  /\ mexcStatus st' = Status.ERROR
  /\ map message (logs st') = ["MEXC sync error: Failed to fetch"].
Proof. repeat split. Qed.

(** An error text that is empty is falsy: the run takes the success
    path. *)
Example empty_error_text_is_success :
  let reply := Resolved {| ok := true;
                           json := Resolved (mkPayload (Some "") None None None None None) |} in
  let st' := fst (refreshAccountData synced_state clk0 reply synced_state) in
  mexcStatus st' = Status.CONNECTED /\ spotBalances st' = [].
Proof. split; reflexivity. Qed.

(** C8, as stated, fails.  The guard of the synchronizer reads the
    render held by its closure, not the session and the credentials in
    force when it runs.  A run from a closure made while the operator
    was signed in with both keys set, happening after the sign-out,
    sends its request and sets the status by the reply. *)
Lemma sync_runs_on_stale_session :
  ~ (forall cap clk reply st,
        mexcApiKey (settings st) = "" \/ mexcSecretKey (settings st) = ""
        \/ isLoggedIn st = false ->
        existsb is_account_fetch (snd (refreshAccountData cap clk reply st)) = false
        /\ mexcStatus (fst (refreshAccountData cap clk reply st)) = Status.DISCONNECTED).
Proof.
  intros H.
  destruct (H synced_state clk0 account_error_body (setIsLoggedIn false synced_state))
    as [Hfetch _]; [right; right; reflexivity |].
  discriminate Hfetch.
Qed.

(** Such a run is the one a live cycle makes after its order: the
    operator signs out while the order is pending, the exchange
    accepts, and the closure of the cycle calls the synchronizer, which
    fetches; a failing reply is then logged as an ERROR entry. *)
Example stale_session_refresh :
  snd (runTradingCycle_onTrade synced_state clk1 trade_accepted
                               (setIsLoggedIn false synced_state))
  = [ EvRefreshAccountData;
      EvPostAccount (mkAccountRequest "api-key" "secret-key" "BTCUSDT") ]
  /\ map (fun l => (type l, message l))
         (logs (fst (refreshAccountData synced_state clk0 account_error_body
                                        (setIsLoggedIn false synced_state))))
     = [(LogType.ERROR, "MEXC sync error: Invalid API key")].
Proof. split; reflexivity. Qed.

(** C8, amended. A run of the synchronizer from a closure whose render
    has an empty credential or nobody logged in sends nothing, sets the
    connection status to DISCONNECTED and emits no log entry, so no
    ERROR entry, whatever the current state is. *)
Theorem sync_without_credentials
        (cap : AppState) (clk : Clock) (reply : Outcome (Response AccountPayload))
        (st : AppState) :
  mexcApiKey (settings cap) = "" \/ mexcSecretKey (settings cap) = ""
  \/ isLoggedIn cap = false ->
  snd (refreshAccountData cap clk reply st) = []
  /\ mexcStatus (fst (refreshAccountData cap clk reply st)) = Status.DISCONNECTED
  /\ logs (fst (refreshAccountData cap clk reply st)) = logs st
  /\ accountState (fst (refreshAccountData cap clk reply st)) = accountState st.
Proof.
  intros H. unfold refreshAccountData.
  rewrite (refreshAccountData_start_blocked cap st H).
  repeat split.
Qed.

(** The theorem at the default settings, whose credentials are empty. *)
Lemma sync_without_credentials_witness :
  snd (refreshAccountData (render_with defaultSettings) clk0 account_partial_body
                          (render_with defaultSettings)) = []
  /\ mexcStatus (fst (refreshAccountData (render_with defaultSettings) clk0
                        account_partial_body (render_with defaultSettings)))
     = Status.DISCONNECTED.
Proof.
  destruct (sync_without_credentials (render_with defaultSettings) clk0
              account_partial_body (render_with defaultSettings))
    as (Hev & Hstat & _); [left; reflexivity |].
  split; [exact Hev | exact Hstat].
Defined.

Lemma resume_succeeds (clk : Clock) (reply : Outcome (Response AccountPayload))
      (data : AccountPayload) (st : AppState) :
  SyncSucceeds reply data ->
  accountState (refreshAccountData_resume clk reply st)
  = (or_empty (data_spotBalances data), or_empty (data_futuresBalances data),
     or_empty (data_positions data), or_empty (data_orders data),
     or_empty (data_trades data))
  /\ mexcStatus (refreshAccountData_resume clk reply st) = Status.CONNECTED.
Proof.
  intros [Hres Herr]. unfold refreshAccountData_resume.
  rewrite Hres, Herr. split; reflexivity.
Qed.

(** C9. A run of the synchronizer that sends its request and succeeds
    replaces each of the five collections by the one of the body, and
    by the empty list when the body has none: what the account held
    before the call has no part in what it holds after. *)
Theorem sync_success_replaces_all
        (cap : AppState) (clk : Clock) (reply : Outcome (Response AccountPayload))
        (data : AccountPayload) (st : AppState) :
  mexcApiKey (settings cap) <> "" ->
  mexcSecretKey (settings cap) <> "" ->
  isLoggedIn cap = true ->
  SyncSucceeds reply data ->
  let st' := fst (refreshAccountData cap clk reply st) in
  accountState st'
  = (or_empty (data_spotBalances data), or_empty (data_futuresBalances data),
     or_empty (data_positions data), or_empty (data_orders data),
     or_empty (data_trades data))
  /\ (data_spotBalances data = None -> spotBalances st' = [])
  /\ (data_futuresBalances data = None -> futuresBalances st' = [])
  /\ (data_positions data = None -> mexcPositions st' = [])
  /\ (data_orders data = None -> mexcOrders st' = [])
  /\ (data_trades data = None -> mexcTrades st' = [])
  /\ (forall st2, accountState (fst (refreshAccountData cap clk reply st2)) = accountState st').
Proof.
  intros Hk Hs Hl Hok. unfold refreshAccountData.
  rewrite (refreshAccountData_start_ready cap st Hk Hs Hl). cbn [fst].
  destruct (resume_succeeds clk reply data st Hok) as [Hacc _].
  split; [exact Hacc |].
  unfold accountState in Hacc. injection Hacc as H1 H2 H3 H4 H5.
  repeat split.
  - intros Hn. rewrite H1, Hn. reflexivity.
  - intros Hn. rewrite H2, Hn. reflexivity.
  - intros Hn. rewrite H3, Hn. reflexivity.
  - intros Hn. rewrite H4, Hn. reflexivity.
  - intros Hn. rewrite H5, Hn. reflexivity.
  - intros st2. rewrite (refreshAccountData_start_ready cap st2 Hk Hs Hl). cbn [fst].
    destruct (resume_succeeds clk reply data st2 Hok) as [Hacc2 _].
    rewrite Hacc2. unfold accountState. rewrite H1, H2, H3, H4, H5. reflexivity.
Qed.

(** The theorem at a body that only has positions: the balance held
    before is replaced by the empty list. *)
Lemma sync_success_replaces_all_witness :
  spotBalances synced_state = [usdt]
  /\ spotBalances (fst (refreshAccountData synced_state clk0 account_partial_body synced_state))
     = []
  /\ mexcPositions (fst (refreshAccountData synced_state clk0 account_partial_body synced_state))
     = [btc_long].
Proof.
  destruct (sync_success_replaces_all synced_state clk0 account_partial_body
              account_positions_only synced_state)
    as (Hacc & Hspot & _);
    [discriminate | discriminate | reflexivity | split; reflexivity |].
  split; [reflexivity |]. split.
  - apply Hspot. reflexivity.
  - exact (f_equal (fun a => snd (fst (fst a))) Hacc).
Defined.

(** ** Decision cycle *)

Lemma runTradingCycle_path (cap : AppState) (env : CycleEnv) (st : AppState) :
  CyclePath cap env st (runTradingCycle cap env st).
Proof.
  unfold runTradingCycle, runTradingCycle_start.
  destruct (isAutoTrading (settings cap)) eqn:Hauto; cbn [negb];
    [| apply path_guard; left; exact Hauto].
  destruct (marketData cap) as [md |] eqn:Hmd;
    [| apply path_guard; right; exact Hmd].
  unfold runTradingCycle_onAnalyze.
  destruct (await_json (oracle_reply env)) as [d | e] eqn:Hreply;
    [| exact (path_oracle_throws cap env st md e Hauto Hmd Hreply)].
  destruct (String.eqb_spec (action d) "WAIT") as [Hwait | Hact]; cbn [negb].
  - exact (path_wait cap env st md d Hauto Hmd Hreply Hwait).
  - destruct (isLiveMode (settings cap)) eqn:Hlive.
    + unfold runTradingCycle_onTrade.
      destruct (trade_reply env) as [r | e] eqn:Htrade.
      * pose proof (path_order_accepted cap env st md d r
                      Hauto Hmd Hreply Hact Hlive Htrade) as P.
        unfold refresh_events, after_decision in P.
        destruct (refreshAccountData_start cap _) as [st1 req]. exact P.
      * exact (path_order_throws cap env st md d e Hauto Hmd Hreply Hact Hlive Htrade).
    + exact (path_simulated cap env st md d Hauto Hmd Hreply Hact Hlive).
Qed.

Lemma logs_after_decision clk d st :
  logs (after_decision clk d st)
  = firstn 100 (entry_of clk LogType.TRADE (decision_message d) :: logs st).
Proof. unfold after_decision. rewrite logs_addLog. reflexivity. Qed.

Lemma lastAction_after_decision clk d st :
  lastAction (after_decision clk d st) = Some d.
Proof. reflexivity. Qed.

Lemma logs_cycle_catch clk e st :
  logs (runTradingCycle_catch clk e st)
  = firstn 100 (entry_of clk LogType.ERROR (analysis_failed_message e) :: logs st).
Proof. unfold runTradingCycle_catch. cbn [logs setIsAnalyzing]. apply logs_addLog. Qed.

(** Case analysis on the way a cycle took. *)
Ltac cycle_paths cap env st :=
  destruct (runTradingCycle_path cap env st)
    as [Hguard
       | md e Hauto Hmd Hreply
       | md d Hauto Hmd Hreply Hwait
       | md d Hauto Hmd Hreply Hact Hlive
       | md d r Hauto Hmd Hreply Hact Hlive Htrade
       | md d e Hauto Hmd Hreply Hact Hlive Htrade];
  cbn [fst snd existsb orb]; try rewrite Hreply.

(** The oracle is asked exactly when the guard of the cycle passes. *)
Lemma oracle_asked_iff (cap : AppState) (env : CycleEnv) (st : AppState) :
  oracle_asked cap env st = true
  <-> isAutoTrading (settings cap) = true /\ marketData cap <> None.
Proof.
  unfold oracle_asked. cycle_paths cap env st; cbn [is_analyze].
  - split; [discriminate |]. intros [Ha Hm]. destruct Hguard; congruence.
  - split; [intros _; split; congruence | reflexivity].
  - split; [intros _; split; congruence | reflexivity].
  - split; [intros _; split; congruence | reflexivity].
  - split; [intros _; split; congruence | reflexivity].
  - split; [intros _; split; congruence | reflexivity].
Qed.

(** C1. In a decision cycle the order is submitted if and only if
    auto-trading is on, live mode is on, and the oracle returned a
    decision whose action is not WAIT.  In simulation mode a decision
    with another action is stored and logged as a TRADE entry, and no
    order is submitted. *)
Theorem trade_executor_gate (cap : AppState) (env : CycleEnv) (st : AppState) :
  (trade_submitted cap env st = true <->
   isAutoTrading (settings cap) = true
   /\ isLiveMode (settings cap) = true
   /\ exists d, oracle_returned cap env st = Some d /\ action d <> "WAIT")
  /\ (forall d,
         isLiveMode (settings cap) = false ->
         oracle_returned cap env st = Some d ->
         action d <> "WAIT" ->
         trade_submitted cap env st = false
         /\ lastAction (fst (runTradingCycle cap env st)) = Some d
         /\ logs (fst (runTradingCycle cap env st))
            = firstn 100 (entry_of (oracle_clock env) LogType.TRADE (decision_message d)
                            :: logs st)).
Proof.
  unfold trade_submitted, oracle_returned, oracle_asked.
  cycle_paths cap env st; cbn [is_trade is_analyze existsb orb refresh_events].
  - split.
    + split; [discriminate | intros (_ & _ & d & Hd & _); discriminate].
    + intros d _ Hd; discriminate.
  - split.
    + split; [discriminate | intros (_ & _ & d & Hd & _); discriminate].
    + intros d _ Hd; discriminate.
  - split.
    + split; [discriminate |].
      intros (_ & _ & d0 & Hd & Hne). injection Hd as <-. contradiction.
    + intros d0 _ Hd Hne. injection Hd as <-. contradiction.
  - split.
    + split; [discriminate |]. intros (_ & Hl & _). congruence.
    + intros d0 _ Hd _. injection Hd as <-.
      split; [reflexivity |]. split; [reflexivity |].
      cbn [logs setIsAnalyzing]. apply logs_after_decision.
  - split.
    + split; [| reflexivity]. intros _.
      split; [exact Hauto |]. split; [exact Hlive |]. exists d. split; [reflexivity | exact Hact].
    + intros d0 Hsim. congruence.
  - split.
    + split; [| reflexivity]. intros _.
      split; [exact Hauto |]. split; [exact Hlive |]. exists d. split; [reflexivity | exact Hact].
    + intros d0 Hsim. congruence.
Qed.

(** The scenario of the specification: BTCUSDT, auto-trading on,
    simulation mode, the oracle answers LONG with confidence 80. *)
Lemma trade_executor_gate_witness :
  trade_submitted (render_with sim_settings) env_accepted (render_with sim_settings) = false
  /\ lastAction (fst (runTradingCycle (render_with sim_settings) env_accepted
                                      (render_with sim_settings))) = Some long80
  /\ logs (fst (runTradingCycle (render_with sim_settings) env_accepted
                                (render_with sim_settings)))
     = firstn 100 (entry_of clk0 LogType.TRADE (decision_message long80) :: []).
Proof.
  destruct (trade_executor_gate (render_with sim_settings) env_accepted
                                (render_with sim_settings)) as [_ Hsim].
  apply (Hsim long80); [reflexivity | reflexivity | discriminate].
Defined.

Example simulated_long_is_logged :
  map (fun l => (type l, message l))
      (logs (fst (runTradingCycle (render_with sim_settings) env_accepted
                                  (render_with sim_settings))))
  = [(LogType.TRADE, "AI decision: LONG (80%)")].
Proof. reflexivity. Qed.

(** The same with live mode on: the order is sent with action LONG. *)
Example live_long_is_submitted :
  map is_trade (snd (runTradingCycle (render_with live_settings) env_accepted
                                     (render_with live_settings)))
  = [false; true; false; false]
  /\ trade_submitted (render_with live_settings) env_accepted (render_with live_settings)
     = true.
Proof. split; reflexivity. Qed.

(** C7. In a decision cycle whose oracle call fails, an ERROR entry is
    put in the ledger, the last decision stays as it was, and the cycle
    ends there: the oracle request is all it sent, so no order. *)
Theorem oracle_failure_ends_cycle
        (cap : AppState) (env : CycleEnv) (st : AppState) (err : Thrown) :
  oracle_failed cap env st = Some err ->
  logs (fst (runTradingCycle cap env st))
  = firstn 100 (entry_of (oracle_clock env) LogType.ERROR (analysis_failed_message err)
                  :: logs st)
  /\ lastAction (fst (runTradingCycle cap env st)) = lastAction st
  /\ trade_submitted cap env st = false
  /\ List.length (snd (runTradingCycle cap env st)) = 1%nat.
Proof.
  unfold trade_submitted, oracle_failed, oracle_asked.
  cycle_paths cap env st; cbn [is_trade is_analyze existsb orb refresh_events];
    intros Herr; try discriminate.
  injection Herr as <-.
  split; [rewrite logs_cycle_catch; reflexivity |]. repeat split.
Qed.

Lemma oracle_failure_ends_cycle_witness :
  lastAction (fst (runTradingCycle (render_with live_settings) env_oracle_down
                     (setLastAction (Some long80) (render_with live_settings))))
  = Some long80
  /\ trade_submitted (render_with live_settings) env_oracle_down
                     (setLastAction (Some long80) (render_with live_settings)) = false.
Proof.
  destruct (oracle_failure_ends_cycle (render_with live_settings) env_oracle_down
              (setLastAction (Some long80) (render_with live_settings))
              (ErrorObj "500: upstream timeout"))
    as (_ & Hlast & Htrade & _); [reflexivity |].
  split; [exact Hlast | exact Htrade].
Defined.

Example oracle_failure_is_logged :
  map (fun l => (type l, message l))
      (logs (fst (runTradingCycle (render_with live_settings) env_oracle_down
                                  (render_with live_settings))))
  = [(LogType.ERROR, "AI analysis failed: 500: upstream timeout")].
Proof. reflexivity. Qed.

(** C2, as stated, fails: in live mode with the answer LONG/80, when
    the order submission throws, the order was sent and no call of
    [refreshAccountData()] follows it. *)
Lemma refresh_skipped_when_order_throws :
  ~ (forall cap env st,
        trade_submitted cap env st = true ->
        refresh_after_trade (snd (runTradingCycle cap env st)) = true).
Proof.
  intros H.
  specialize (H (render_with live_settings) env_refused (render_with live_settings)
                eq_refl).
  discriminate H.
Qed.

(** C2, amended. In a decision cycle that submits an order, the call of
    [refreshAccountData()] follows the submission exactly when the
    submission is accepted; when the submission throws, the cycle puts
    an ERROR entry in the ledger and makes no such call. *)
Theorem refresh_follows_accepted_order (cap : AppState) (env : CycleEnv) (st : AppState) :
  trade_submitted cap env st = true ->
  (refresh_after_trade (snd (runTradingCycle cap env st)) = true
   <-> exists r, trade_reply env = Resolved r)
  /\ (forall err,
         trade_reply env = Rejected err ->
         existsb is_refresh (snd (runTradingCycle cap env st)) = false
         /\ hd_error (logs (fst (runTradingCycle cap env st)))
            = Some (entry_of (trade_clock env) LogType.ERROR (analysis_failed_message err))).
Proof.
  unfold trade_submitted.
  cycle_paths cap env st;
    cbn [is_trade is_refresh existsb orb refresh_events refresh_after_trade];
    intros Hsub; try discriminate.
  - split.
    + split; [intros _; exists r; exact Htrade | reflexivity].
    + intros err Herr. congruence.
  - split.
    + split; [discriminate | intros [r Hr]; congruence].
    + intros err Herr. assert (err = e) as -> by congruence.
      split; [reflexivity |]. rewrite logs_cycle_catch. reflexivity.
Qed.

Lemma refresh_follows_accepted_order_witness :
  (refresh_after_trade (snd (runTradingCycle (render_with live_settings) env_accepted
                                             (render_with live_settings))) = true
   <-> exists r, trade_reply env_accepted = Resolved r).
Proof.
  apply (refresh_follows_accepted_order (render_with live_settings) env_accepted
                                        (render_with live_settings)).
  reflexivity.
Defined.

(** What the live cycle sends when the order is accepted: the oracle
    request, the order, then the refresh and its account request. *)
Example live_cycle_events :
  snd (runTradingCycle (render_with live_settings) env_accepted (render_with live_settings))
  = [ EvPostAnalyze (analyze_body (render_with live_settings) btc_market);
      EvPostTrade (trade_body (render_with live_settings) btc_market long80);
      EvRefreshAccountData;
      EvPostAccount (mkAccountRequest "api-key" "secret-key" "BTCUSDT") ].
Proof. reflexivity. Qed.

(** ** Decision cycle scheduler *)

Lemma replace_at_length {A : Type} (i : nat) (new l : list A) (x : A) :
  nth_error l i = Some x ->
  List.length (replace_at i new l) = (List.length l - 1 + List.length new)%nat.
Proof.
  intros H.
  assert (Hi : (i < List.length l)%nat) by (apply nth_error_Some; congruence).
  unfold replace_at. rewrite !length_app, length_firstn, length_skipn. lia.
Qed.

Lemma start_cycle_in_flight (cap : AppState) (s : Sched) :
  in_flight (start_cycle cap s)
  = (in_flight s + if isAutoTrading (settings cap)
                   then match marketData cap with Some _ => 1 | None => 0 end
                   else 0)%nat.
Proof.
  unfold start_cycle, runTradingCycle_start, in_flight.
  destruct (isAutoTrading (settings cap)); cbn [negb].
  - destruct (marketData cap); cbn [inflight]; rewrite length_app; reflexivity.
  - cbn [inflight]. rewrite length_app. reflexivity.
Qed.

Lemma effect_run_in_flight (s : Sched) :
  (in_flight (effect_run s) <= in_flight s + 1)%nat.
Proof.
  unfold effect_run. destruct (isAutoTrading (settings (app s))) eqn:Hauto.
  - change (in_flight (start_cycle (app s) s) <= in_flight s + 1)%nat.
    rewrite start_cycle_in_flight, Hauto. destruct (marketData (app s)); lia.
  - unfold in_flight. cbn [inflight]. lia.
Qed.

(** Replies and outside changes never add a cycle; a call of the cycle
    adds at most one. *)
Lemma step_in_flight (s : Sched) (e : SchedEvent) :
  (in_flight (step s e)
   <= in_flight s + if calls_cycle e then 1 else 0)%nat.
Proof.
  destruct e as [| | i clk reply | i clk reply | s' | t reply | clk reply];
    cbn [step calls_cycle].
  - apply effect_run_in_flight.
  - destruct (timer s) as [cap |]; [| lia].
    rewrite start_cycle_in_flight.
    destruct (isAutoTrading (settings cap)); [destruct (marketData cap) |]; lia.
  - destruct (nth_error (inflight s) i) as [[cap md | cap] |] eqn:Hi; try lia.
    destruct (runTradingCycle_onAnalyze cap md clk reply (app s)) as [[st evs] suspended].
    assert (Hlt : (i < List.length (inflight s))%nat) by (apply nth_error_Some; congruence).
    unfold in_flight. cbn [inflight].
    rewrite (replace_at_length i _ (inflight s) _ Hi).
    destruct suspended; cbn [List.length]; lia.
  - destruct (nth_error (inflight s) i) as [[cap md | cap] |] eqn:Hi; try lia.
    destruct (runTradingCycle_onTrade cap clk reply (app s)) as [st evs].
    assert (Hlt : (i < List.length (inflight s))%nat) by (apply nth_error_Some; congruence).
    unfold in_flight. cbn [inflight].
    rewrite (replace_at_length i _ (inflight s) _ Hi). cbn [List.length]. lia.
  - unfold in_flight. cbn [with_app inflight]. lia.
  - unfold in_flight. cbn [with_app inflight]. lia.
  - unfold in_flight. cbn [with_app inflight]. lia.
Qed.




Example overlap_trace_in_flight :
  in_flight (run overlap_trace (mount defaultSettings)) = 2%nat
  /\ List.length (sent (run overlap_trace (mount defaultSettings))) = 2%nat.
Proof. split; reflexivity. Qed.

(** The same happens without the interval: a successful poller tick
    changes [marketData], the effect runs again and calls the cycle
    while the first one waits for the oracle. *)
Example market_tick_restarts_cycle :
  in_flight (run [ MarketReply "10:00:00" ticker_ok; EffectRun;
                   SettingsChange sim_settings; EffectRun;
                   MarketReply "10:00:05" ticker_ok; EffectRun ]
                 (mount defaultSettings)) = 2%nat.
Proof. reflexivity. Qed.



(** ** Settings inputs *)

Example parseInt_samples :
  parseInt "42" = Some 42
  /\ parseInt "  -7px" = Some (-7)
  /\ parseInt "0x1F" = Some 31
  /\ parseInt "12.9" = Some 12
  /\ parseInt "" = None
  /\ parseInt "abc" = None
  /\ parseInt "-" = None
  /\ parseInt "0x" = None.
Proof. repeat split. Qed.

Lemma stripPrefix_no_digit (c : ascii) (r : string) :
  isDecimalDigit c = false -> stripPrefix (String c r) = (10, String c r).
Proof.
  destruct c as [[] [] [] [] [] [] [] []]; intros H; vm_compute in H;
    try discriminate H; reflexivity.
Qed.

Lemma parseDigits_no_digit (c : ascii) (r : string) :
  isDecimalDigit c = false -> parseDigits 10 (String c r) None = None.
Proof.
  destruct c as [[] [] [] [] [] [] [] []]; intros H; vm_compute in H;
    try discriminate H; reflexivity.
Qed.

(** An input that does not begin with a number parses to [NaN]. *)
Lemma parseInt_non_numeric (value : string) :
  non_numeric value = true -> parseInt value = None.
Proof.
  unfold non_numeric, parseInt.
  destruct (stripSign (trimStart value)) as [sign S1]. cbn [snd].
  destruct S1 as [| c r]; [reflexivity |].
  intros H. apply negb_true_iff in H.
  rewrite (stripPrefix_no_digit c r H), (parseDigits_no_digit c r H). reflexivity.
Qed.

(** C10. For every input string the leverage handler stores a value
    between 1 and 125, the risk-percent handler a value between 1 and
    100, and the interval handler a value of at least 1; an input that
    parses to no number, as every input that does not begin with one,
    is stored as 1 by all three. *)
Theorem settings_inputs_bounded (value : string) (s : AppSettings) :
  1 <= defaultLeverage (onChange_leverage value s) <= 125
  /\ 1 <= riskPercent (onChange_riskPercent value s) <= 100
  /\ 1 <= intervalMinutes (onChange_interval value s)
  /\ (parseInt value = None \/ non_numeric value = true ->
      defaultLeverage (onChange_leverage value s) = 1
      /\ riskPercent (onChange_riskPercent value s) = 1
      /\ intervalMinutes (onChange_interval value s) = 1).
Proof.
  unfold onChange_leverage, onChange_riskPercent, onChange_interval.
  cbn [defaultLeverage riskPercent intervalMinutes
       with_defaultLeverage with_riskPercent with_intervalMinutes].
  split; [lia |]. split; [lia |]. split; [lia |].
  intros H.
  assert (Hnan : parseInt value = None).
  { destruct H as [H | H]; [exact H | apply parseInt_non_numeric; exact H]. }
  rewrite Hnan. cbn [num_or]. lia.
Qed.

Lemma settings_inputs_bounded_witness :
  defaultLeverage (onChange_leverage "ten" defaultSettings) = 1
  /\ riskPercent (onChange_riskPercent "ten" defaultSettings) = 1
  /\ intervalMinutes (onChange_interval "ten" defaultSettings) = 1.
Proof.
  destruct (settings_inputs_bounded "ten" defaultSettings) as (_ & _ & _ & H).
  apply H. right. reflexivity.
Defined.

Example settings_inputs_samples :
  defaultLeverage (onChange_leverage "500" defaultSettings) = 125
  /\ defaultLeverage (onChange_leverage "-3" defaultSettings) = 1
  /\ defaultLeverage (onChange_leverage "0" defaultSettings) = 1
  /\ riskPercent (onChange_riskPercent "250" defaultSettings) = 100
  /\ riskPercent (onChange_riskPercent "37" defaultSettings) = 37
  /\ intervalMinutes (onChange_interval "15" defaultSettings) = 15
  /\ intervalMinutes (onChange_interval "" defaultSettings) = 1.
Proof. repeat split. Qed.

(* ================================================================== *)
(** * Further properties of the component *)
(* ================================================================== *)

(** ** The decision cycle, path by path *)

(** X1. A cycle that passes its guard ends with the analysing flag off
    on every path: the oracle throws, the answer is WAIT, simulation,
    the order is accepted, the order throws.  A cycle stopped at the
    guard changes nothing and sends nothing. *)
Theorem cycle_ends_with_spinner_off (cap : AppState) (env : CycleEnv) (st : AppState) :
  (isAutoTrading (settings cap) = true ->
   marketData cap <> None ->
   isAnalyzing (fst (runTradingCycle cap env st)) = false)
  /\ (isAutoTrading (settings cap) = false \/ marketData cap = None ->
      runTradingCycle cap env st = (st, [])).
Proof.
  cycle_paths cap env st.
  - split; [| reflexivity]. intros Ha Hm. destruct Hguard; congruence.
  - split; [reflexivity |]. intros [H | H]; congruence.
  - split; [reflexivity |]. intros [H | H]; congruence.
  - split; [reflexivity |]. intros [H | H]; congruence.
  - split; [reflexivity |]. intros [H | H]; congruence.
  - split; [reflexivity |]. intros [H | H]; congruence.
Qed.

Lemma cycle_ends_with_spinner_off_witness :
  isAnalyzing (fst (runTradingCycle (render_with live_settings) env_refused
                                    (setIsAnalyzing true (render_with live_settings))))
  = false
  /\ runTradingCycle (initialState sim_settings) env_accepted (initialState sim_settings)
     = (initialState sim_settings, []).
Proof.
  split.
  - apply (cycle_ends_with_spinner_off (render_with live_settings) env_refused);
      [reflexivity | discriminate].
  - apply (cycle_ends_with_spinner_off (initialState sim_settings) env_accepted).
    right. reflexivity.
Defined.

(** X2. When the oracle answers WAIT the answer replaces the stored
    decision, whatever it was, and nothing else happens: no ledger
    entry, no order, no call of the synchronizer, in live mode as in
    simulation. *)
Theorem wait_decision_is_only_stored
        (cap : AppState) (env : CycleEnv) (st : AppState) (answer : TradeAction) :
  oracle_returned cap env st = Some answer ->
  action answer = "WAIT" ->
  lastAction (fst (runTradingCycle cap env st)) = Some answer
  /\ logs (fst (runTradingCycle cap env st)) = logs st
  /\ mexcStatus (fst (runTradingCycle cap env st)) = mexcStatus st
  /\ trade_submitted cap env st = false
  /\ existsb is_refresh (snd (runTradingCycle cap env st)) = false.
Proof.
  unfold trade_submitted, oracle_returned, oracle_asked.
  cycle_paths cap env st; cbn [is_trade is_analyze is_refresh existsb orb refresh_events];
    intros Hd Hw; try discriminate; injection Hd as <-; try contradiction.
  repeat split.
Qed.

Lemma wait_decision_is_only_stored_witness :
  lastAction (fst (runTradingCycle (render_with live_settings) env_wait
                     (setLastAction (Some long80) (render_with live_settings))))
  = Some wait50
  /\ trade_submitted (render_with live_settings) env_wait
                     (setLastAction (Some long80) (render_with live_settings)) = false.
Proof.
  destruct (wait_decision_is_only_stored (render_with live_settings) env_wait
              (setLastAction (Some long80) (render_with live_settings)) wait50)
    as (Hlast & _ & _ & Htrade & _); [reflexivity | reflexivity |].
  split; [exact Hlast | exact Htrade].
Defined.

Lemma count_nil {A : Type} (p : A -> bool) : count p [] = 0%nat.
Proof. reflexivity. Qed.

Lemma count_cons {A : Type} (p : A -> bool) (x : A) (l : list A) :
  count p (x :: l) = ((if p x then 1 else 0) + count p l)%nat.
Proof. unfold count. cbn [filter]. destruct (p x); reflexivity. Qed.

Lemma count_app {A : Type} (p : A -> bool) (l r : list A) :
  count p (l ++ r) = (count p l + count p r)%nat.
Proof. unfold count. rewrite filter_app, length_app. reflexivity. Qed.

Lemma refresh_events_counts (cap st : AppState) :
  count is_analyze (refresh_events cap st) = 0%nat
  /\ count is_trade (refresh_events cap st) = 0%nat
  /\ count is_refresh (refresh_events cap st) = 1%nat.
Proof.
  unfold refresh_events.
  destruct (snd (refreshAccountData_start cap st)); repeat split.
Qed.

(** A list with a marked element, read from its head. *)
Lemma app_cons_cases {A : Type} (a x : A) (l pre post : list A) :
  a :: l = (pre ++ x :: post)%list ->
  (pre = [] /\ a = x /\ l = post)
  \/ (exists pre', pre = a :: pre' /\ l = (pre' ++ x :: post)%list).
Proof.
  destruct pre as [| y pre']; cbn [List.app]; intros H; injection H as -> ->.
  - left. repeat split.
  - right. exists pre'. split; reflexivity.
Qed.

(** Reads an equation [l = pre ++ x :: post] on a list [l] given
    element by element: one case for each place of [x]. *)
Ltac place_in_list H :=
  repeat match type of H with
         | _ :: _ = (_ ++ _ :: _)%list =>
             apply app_cons_cases in H;
             destruct H as [(-> & H & <-) | (? & -> & H)]
         | [] = (_ ++ _ :: _)%list =>
             destruct (app_cons_not_nil _ _ _ H)
         end.

(** X3. One cycle sends at most one oracle request, at most one order
    and makes at most one call of the synchronizer, in this order: the
    oracle request is sent before the order and no second order
    follows, and the order is sent before the call of the synchronizer.
    The order has for action the action the oracle returned, for price
    the price of the market snapshot of the render the cycle started
    from, and for keys, symbol and leverage the ones of the settings of
    that render. *)
Theorem cycle_sends_one_of_each (cap : AppState) (env : CycleEnv) (st : AppState) :
  (count is_refresh (snd (runTradingCycle cap env st))
   <= count is_trade (snd (runTradingCycle cap env st)))%nat
  /\ (count is_trade (snd (runTradingCycle cap env st))
      <= count is_analyze (snd (runTradingCycle cap env st)))%nat
  /\ (count is_analyze (snd (runTradingCycle cap env st)) <= 1)%nat
  /\ (forall pre body post,
         snd (runTradingCycle cap env st) = (pre ++ EvPostTrade body :: post)%list ->
         existsb is_analyze pre = true
         /\ existsb is_trade post = false
         /\ exists md d,
             marketData cap = Some md
             /\ oracle_returned cap env st = Some d
             /\ tr_action body = action d
             /\ tr_price body = price md
             /\ tr_apiKey body = mexcApiKey (settings cap)
             /\ tr_secretKey body = mexcSecretKey (settings cap)
             /\ tr_symbol body = tradingSymbol (settings cap)
             /\ tr_leverage body = defaultLeverage (settings cap))
  /\ (forall pre post,
         snd (runTradingCycle cap env st) = (pre ++ EvRefreshAccountData :: post)%list ->
         existsb is_trade pre = true).
Proof.
  unfold oracle_returned, oracle_asked.
  cycle_paths cap env st; cbn [is_analyze existsb orb].
  - split; [cbn; lia |]. split; [cbn; lia |]. split; [cbn; lia |].
    split; [intros pre body post H | intros pre post H]; place_in_list H.
  - split; [cbn; lia |]. split; [cbn; lia |]. split; [cbn; lia |].
    split; [intros pre body post H | intros pre post H];
      place_in_list H; discriminate.
  - split; [cbn; lia |]. split; [cbn; lia |]. split; [cbn; lia |].
    split; [intros pre body post H | intros pre post H];
      place_in_list H; discriminate.
  - split; [cbn; lia |]. split; [cbn; lia |]. split; [cbn; lia |].
    split; [intros pre body post H | intros pre post H];
      place_in_list H; discriminate.
  - destruct (refresh_events_counts cap (after_decision (oracle_clock env) d st))
      as (Ha & Ht & Hr).
    rewrite !count_cons, Ha, Ht, Hr. cbn [is_analyze is_trade is_refresh].
    split; [lia |]. split; [lia |]. split; [lia |].
    unfold refresh_events.
    destruct (snd (refreshAccountData_start cap (after_decision (oracle_clock env) d st)));
      (split; [intros pre body post H | intros pre post H]);
      place_in_list H; try discriminate; try reflexivity;
      injection H as <-;
      (split; [reflexivity |]); (split; [reflexivity |]);
      exists md, d; repeat split; assumption.
  - split; [cbn; lia |]. split; [cbn; lia |]. split; [cbn; lia |].
    split; [intros pre body post H | intros pre post H];
      place_in_list H; try discriminate.
    injection H as <-.
    split; [reflexivity |]. split; [reflexivity |].
    exists md, d. repeat split; assumption.
Qed.

(** The live cycle of the scenario: the order is the second event, after
    the oracle request, and is a LONG at the price of the snapshot with
    the keys of the settings. *)
Lemma cycle_sends_one_of_each_witness :
  exists md d,
    marketData (render_with live_settings) = Some md
    /\ oracle_returned (render_with live_settings) env_accepted (render_with live_settings)
       = Some d
    /\ "LONG" = action d
    /\ 67000 # 1 = price md
    /\ "api-key" = mexcApiKey (settings (render_with live_settings))
    /\ "secret-key" = mexcSecretKey (settings (render_with live_settings))
    /\ "BTCUSDT" = tradingSymbol (settings (render_with live_settings))
    /\ 10 = defaultLeverage (settings (render_with live_settings)).
Proof.
  destruct (cycle_sends_one_of_each (render_with live_settings) env_accepted
                                    (render_with live_settings)) as (_ & _ & _ & H & _).
  destruct (H [EvPostAnalyze (analyze_body (render_with live_settings) btc_market)]
              (mkTradeRequest "LONG" "api-key" "secret-key" "BTCUSDT" 10 (67000 # 1))
              [EvRefreshAccountData;
               EvPostAccount (mkAccountRequest "api-key" "secret-key" "BTCUSDT")]
              eq_refl) as (_ & _ & Hbody).
  exact Hbody.
Defined.

(** ** What each task leaves alone *)

Lemma untouched_by_cycle_refl (st : AppState) : untouched_by_cycle st st.
Proof. repeat split. Qed.

Lemma untouched_by_cycle_trans (a b c : AppState) :
  untouched_by_cycle a b -> untouched_by_cycle b c -> untouched_by_cycle a c.
Proof.
  unfold untouched_by_cycle. intros (H1 & H2 & H3 & H4 & H5) (K1 & K2 & K3 & K4 & K5).
  repeat split; congruence.
Qed.

Lemma refreshAccountData_start_frame (cap st : AppState) :
  untouched_by_cycle st (fst (refreshAccountData_start cap st))
  /\ logs (fst (refreshAccountData_start cap st)) = logs st
  /\ lastAction (fst (refreshAccountData_start cap st)) = lastAction st
  /\ isAnalyzing (fst (refreshAccountData_start cap st)) = isAnalyzing st.
Proof.
  unfold refreshAccountData_start.
  destruct (negb (truthy (mexcApiKey (settings cap)))
            || negb (truthy (mexcSecretKey (settings cap)))
            || negb (isLoggedIn cap)); repeat split.
Qed.

Lemma start_frame (cap st : AppState) :
  untouched_by_cycle st (fst (fst (runTradingCycle_start cap st)))
  /\ logs (fst (fst (runTradingCycle_start cap st))) = logs st.
Proof.
  unfold runTradingCycle_start.
  destruct (isAutoTrading (settings cap)); [destruct (marketData cap) |]; repeat split.
Qed.

Lemma onAnalyze_frame (cap : AppState) (md : MarketData) (clk : Clock)
      (reply : Outcome (Response TradeAction)) (st : AppState) :
  untouched_by_cycle st (fst (fst (runTradingCycle_onAnalyze cap md clk reply st))).
Proof.
  unfold runTradingCycle_onAnalyze.
  destruct (await_json reply) as [d | e]; [| repeat split].
  destruct (action d =? "WAIT")%string; cbn [negb]; [repeat split |].
  destruct (isLiveMode (settings cap)); repeat split.
Qed.

Lemma onTrade_frame (cap : AppState) (clk : Clock)
      (reply : Outcome (Response string)) (st : AppState) :
  untouched_by_cycle st (fst (runTradingCycle_onTrade cap clk reply st)).
Proof.
  unfold runTradingCycle_onTrade.
  destruct reply as [r | e]; [| repeat split].
  pose proof (refreshAccountData_start_frame cap st) as (H & _).
  destruct (refreshAccountData_start cap st) as [st1 req]. cbn [fst] in *.
  destruct H as (H1 & H2 & H3 & H4 & H5). repeat split; assumption.
Qed.

(** X4. The decision cycle writes only its own cells: whatever the
    replies, it leaves the settings, the login flag, the market
    snapshot, the five account collections and the loading flag as they
    were. *)
Theorem cycle_writes_only_its_cells (cap : AppState) (env : CycleEnv) (st : AppState) :
  untouched_by_cycle st (fst (runTradingCycle cap env st)).
Proof.
  cycle_paths cap env st; try (repeat split; fail).
  pose proof (refreshAccountData_start_frame cap (after_decision (oracle_clock env) d st))
    as ((H1 & H2 & H3 & H4 & H5) & _).
  repeat split; cbn [isLoggedIn settings marketData isLoading setIsAnalyzing];
    assumption.
Qed.

(** X5. The market poller writes only the market snapshot and the
    loading flag: the settings, the login flag, the account, the
    ledger, the decision, the analysing flag and the exchange status
    are as they were, on success and on failure; a failed fetch is not
    logged. *)
Theorem poller_writes_only_its_cells
        (cap : AppState) (currentTime : string)
        (reply : Outcome (Response Ticker)) (st : AppState) :
  untouched_by_poller st (refreshMarket cap currentTime reply st).
Proof.
  unfold refreshMarket, refreshMarket_catch.
  destruct reply as [response | e].
  - destruct (ok response); cbn [negb].
    + destruct (json response) as [ticker | e];
        destruct (isLoading cap); repeat split.
    + destruct (isLoading cap); repeat split.
  - destruct (isLoading cap); repeat split.
Qed.

(** ** Market poller: the snapshot and its history *)

Lemma most_recent_snoc {A : Type} (n : nat) (l : list A) (x : A) :
  most_recent (S n) (l ++ [x]) = (most_recent n l ++ [x])%list.
Proof.
  unfold most_recent. rewrite length_app, skipn_app. cbn [List.length].
  replace (List.length l + 1 - S n)%nat with (List.length l - n)%nat by lia.
  replace (List.length l - n - List.length l)%nat with 0%nat by lia.
  reflexivity.
Qed.

Lemma market_step_price (st : AppState) (t : MarketTick) :
  price_matches_history st -> price_matches_history (market_step st t).
Proof.
  unfold price_matches_history, market_step, refreshMarket, refreshMarket_catch.
  intros Hst.
  destruct (tick_reply t) as [response | e].
  - destruct (ok response); cbn [negb].
    + destruct (json response) as [ticker | e].
      * assert (H : exists older tm,
                   slice (-50) None
                         (match marketData st with
                          | Some p => history p
                          | None => []
                          end ++ [mkPoint (tick_time t) (ticker_price ticker)])
                   = (older ++ [mkPoint tm (ticker_price ticker)])%list).
        { rewrite slice_last50, (most_recent_snoc 49).
          eexists. eexists. reflexivity. }
        destruct (isLoading (tick_cap t)); exact H.
      * destruct (isLoading (tick_cap t)); exact Hst.
    + destruct (isLoading (tick_cap t)); exact Hst.
  - destruct (isLoading (tick_cap t)); exact Hst.
Qed.

Lemma market_step_some (st : AppState) (t : MarketTick) :
  marketData (market_step st t) = None
  <-> marketData st = None /\ tick_point t = None.
Proof.
  unfold market_step, refreshMarket, refreshMarket_catch, tick_point.
  destruct (tick_reply t) as [response | e].
  - destruct (ok response); cbn [negb].
    + destruct (json response) as [ticker | e].
      * destruct (isLoading (tick_cap t)); cbn; split;
          [discriminate | intros [_ H]; discriminate
           | discriminate | intros [_ H]; discriminate].
      * destruct (isLoading (tick_cap t)); cbn; tauto.
    + destruct (isLoading (tick_cap t)); cbn; tauto.
  - destruct (isLoading (tick_cap t)); cbn; tauto.
Qed.

Lemma market_run_price (ticks : list MarketTick) :
  forall st, price_matches_history st -> price_matches_history (market_run ticks st).
Proof.
  unfold market_run.
  induction ticks as [| t rest IH]; intros st H; [exact H |].
  cbn [fold_left]. apply IH, market_step_price, H.
Qed.

Lemma market_run_none (ticks : list MarketTick) :
  forall st,
    marketData (market_run ticks st) = None
    <-> marketData st = None /\ successful_points ticks = [].
Proof.
  unfold market_run.
  induction ticks as [| t rest IH]; intros st; cbn [fold_left successful_points].
  - tauto.
  - rewrite IH, market_step_some.
    destruct (tick_point t); split.
    + intros [[_ H] _]; discriminate.
    + intros [_ H]; discriminate.
    + tauto.
    + tauto.
Qed.

(** X6. Whatever the sequence of poller ticks since the first render,
    the component has no market snapshot exactly as long as no fetch
    has succeeded, and once it has one, the price of the snapshot is
    the price of the newest point of its history. *)
Theorem snapshot_price_is_newest_point (ticks : list MarketTick) (loaded : AppSettings) :
  (marketData (market_run ticks (initialState loaded)) = None
   <-> successful_points ticks = [])
  /\ (forall md,
         marketData (market_run ticks (initialState loaded)) = Some md ->
         exists older t, history md = (older ++ [mkPoint t (price md)])%list).
Proof.
  split.
  - rewrite market_run_none. cbn [marketData initialState]. tauto.
  - intros md Hmd.
    pose proof (market_run_price ticks (initialState loaded) I) as H.
    unfold price_matches_history in H. rewrite Hmd in H. exact H.
Qed.

Lemma snapshot_price_is_newest_point_witness :
  exists older t,
    history {| price := 67000 # 1; change24h := 3 # 2;
               history := [mkPoint "10:00:00" (67000 # 1)] |}
    = (older ++ [mkPoint t (67000 # 1)])%list.
Proof.
  destruct (snapshot_price_is_newest_point [tick_bad; tick_good; tick_bad] defaultSettings)
    as [_ H].
  apply (H {| price := 67000 # 1; change24h := 3 # 2;
              history := [mkPoint "10:00:00" (67000 # 1)] |}).
  reflexivity.
Defined.

Lemma market_step_loading_stays_off (st : AppState) (t : MarketTick) :
  isLoading st = false -> isLoading (market_step st t) = false.
Proof.
  unfold market_step, refreshMarket, refreshMarket_catch. intros H.
  destruct (tick_reply t) as [response | e].
  - destruct (ok response); cbn [negb].
    + destruct (json response) as [ticker | e];
        destruct (isLoading (tick_cap t)); cbn; try reflexivity; exact H.
    + destruct (isLoading (tick_cap t)); cbn; try reflexivity; exact H.
  - destruct (isLoading (tick_cap t)); cbn; try reflexivity; exact H.
Qed.

Lemma market_step_loading_off (st : AppState) (t : MarketTick) :
  isLoading (tick_cap t) = true -> isLoading (market_step st t) = false.
Proof.
  unfold market_step, refreshMarket, refreshMarket_catch. intros H. rewrite H.
  destruct (tick_reply t) as [response | e]; [| reflexivity].
  destruct (ok response); cbn [negb]; [| reflexivity].
  destruct (json response); reflexivity.
Qed.

Lemma market_run_loading_stays_off (ticks : list MarketTick) :
  forall st, isLoading st = false -> isLoading (market_run ticks st) = false.
Proof.
  unfold market_run.
  induction ticks as [| t rest IH]; intros st H; [exact H |].
  cbn [fold_left]. apply IH, market_step_loading_stays_off, H.
Qed.

(** X7. The loading screen ends with the first tick of the poller that
    settles, whether its fetch succeeded or failed, and no later tick
    brings it back: once a tick whose closure saw the loading flag on
    has run, the flag is off after every further sequence of ticks. *)
Theorem loading_ends_with_first_tick
        (before after : list MarketTick) (t : MarketTick) (st : AppState) :
  isLoading (tick_cap t) = true ->
  isLoading (market_run (before ++ t :: after) st) = false.
Proof.
  intros H. unfold market_run. rewrite fold_left_app. cbn [fold_left].
  apply market_run_loading_stays_off, market_step_loading_off, H.
Qed.

Lemma loading_ends_with_first_tick_witness :
  isLoading (market_run ([] ++ tick_bad :: [tick_good]) (initialState defaultSettings))
  = false.
Proof.
  apply (loading_ends_with_first_tick [] [tick_good] tick_bad (initialState defaultSettings)).
  reflexivity.
Defined.

(** ** Account synchronizer: status and callers *)

(** X8. The account synchronizer writes only the account collections,
    the exchange status and the ledger: the settings, the login flag,
    the market snapshot, the decision, the loading flag and the
    analysing flag are as they were, whatever the reply. *)
Theorem sync_writes_only_its_cells
        (cap : AppState) (clk : Clock)
        (reply : Outcome (Response AccountPayload)) (st : AppState) :
  untouched_by_sync st (fst (refreshAccountData cap clk reply st)).
Proof.
  unfold refreshAccountData, refreshAccountData_start, refreshAccountData_resume.
  destruct (negb (truthy (mexcApiKey (settings cap)))
            || negb (truthy (mexcSecretKey (settings cap)))
            || negb (isLoggedIn cap)); cbn [fst]; [repeat split |].
  destruct (await_json reply) as [data | e]; [| repeat split].
  destruct (truthy_opt (error data)); repeat split.
Qed.

Lemma guard_is_not_ready (cap : AppState) :
  negb (truthy (mexcApiKey (settings cap)))
  || negb (truthy (mexcSecretKey (settings cap)))
  || negb (isLoggedIn cap)
  = negb (account_effect_ready cap).
Proof.
  unfold account_effect_ready.
  destruct (truthy (mexcApiKey (settings cap))),
           (truthy (mexcSecretKey (settings cap))), (isLoggedIn cap); reflexivity.
Qed.

Lemma truthy_opt_true (o : option string) :
  truthy_opt o = true -> exists s, o = Some s /\ s <> "".
Proof.
  destruct o as [[| c r] |]; cbn; try discriminate.
  intros _. exists (String c r). split; [reflexivity | discriminate].
Qed.

(** X9. The exchange status after a run of the synchronizer tells how
    that run went, whatever the status was before: DISCONNECTED exactly
    when the guard stopped it, CONNECTED exactly when the request was
    sent and succeeded, ERROR exactly when it was sent and failed. *)
Theorem status_reports_last_run
        (cap : AppState) (clk : Clock)
        (reply : Outcome (Response AccountPayload)) (st : AppState) :
  (mexcStatus (fst (refreshAccountData cap clk reply st)) = Status.DISCONNECTED
   <-> account_effect_ready cap = false)
  /\ (mexcStatus (fst (refreshAccountData cap clk reply st)) = Status.CONNECTED
      <-> account_effect_ready cap = true /\ exists data, SyncSucceeds reply data)
  /\ (mexcStatus (fst (refreshAccountData cap clk reply st)) = Status.ERROR
      <-> account_effect_ready cap = true /\ exists reason, SyncFails reply reason).
Proof.
  unfold refreshAccountData, refreshAccountData_start.
  rewrite guard_is_not_ready.
  destruct (account_effect_ready cap); cbn [negb fst].
  - unfold refreshAccountData_resume.
    destruct (await_json reply) as [data | e] eqn:Hreply.
    + destruct (truthy_opt (error data)) eqn:Herr.
      * destruct (truthy_opt_true _ Herr) as (s & Hs & Hne).
        split; [split; discriminate |]. split.
        -- split; [discriminate |].
           intros (_ & data' & Hd & He). rewrite Hreply in Hd.
           injection Hd as <-. congruence.
        -- split; [| reflexivity]. intros _. split; [reflexivity |].
           exists s. exact (fails_payload reply data s Hreply Hs Hne).
      * split; [split; discriminate |]. split.
        -- split; [| reflexivity]. intros _. split; [reflexivity |].
           exists data. split; assumption.
        -- split; [discriminate |].
           intros (_ & reason & Hf).
           destruct Hf as [reply e Hrej | reply data' s Hres Herr' Hne].
           ++ congruence.
           ++ rewrite Hreply in Hres. injection Hres as <-.
              rewrite Herr' in Herr. cbn in Herr.
              rewrite (truthy_true s Hne) in Herr. discriminate.
    + split; [split; discriminate |]. split.
      * split; [discriminate |].
        intros (_ & data & Hd & _). congruence.
      * split; [| reflexivity]. intros _. split; [reflexivity |].
        exists (message_text e). exact (fails_thrown reply e Hreply).
  - split; [split; reflexivity |]. split.
    + split; [discriminate | intros [H _]; discriminate].
    + split; [discriminate | intros [H _]; discriminate].
Qed.

Lemma status_reports_last_run_witness :
  account_effect_ready synced_state = true
  /\ exists reason, SyncFails account_error_body reason.
Proof.
  apply (status_reports_last_run synced_state clk0 account_error_body synced_state).
  reflexivity.
Defined.

Lemma call_when_ready (render st : AppState) :
  account_effect_ready render = true ->
  call_refreshAccountData render st
  = (st, [ EvRefreshAccountData;
           EvPostAccount {| acc_apiKey := mexcApiKey (settings render);
                            acc_secretKey := mexcSecretKey (settings render);
                            acc_symbol := tradingSymbol (settings render) |} ]).
Proof.
  intros H. unfold call_refreshAccountData, refreshAccountData_start.
  rewrite guard_is_not_ready, H. reflexivity.
Qed.

(** X10. The account effect calls the synchronizer only under the
    negation of the synchronizer's own guard.  So a call made by the
    effect, or by the interval it arms, always sends the request and
    never takes the DISCONNECTED branch; when the condition fails the
    effect sends nothing, arms nothing and leaves the state, exchange
    status included, as it was.  Signing out is such a case: the status
    shown stays what the last run left. *)
Theorem account_effect_never_disconnects (render st : AppState) :
  fst (fst (account_effect render st)) = st
  /\ (account_effect_ready render = true ->
      snd (account_effect render st) = Some render
      /\ existsb is_account_fetch (snd (fst (account_effect render st))) = true
      /\ forall later, fst (call_refreshAccountData render later) = later
                       /\ existsb is_account_fetch
                            (snd (call_refreshAccountData render later)) = true)
  /\ (account_effect_ready render = false ->
      account_effect render st = (st, [], None))
  /\ account_effect (handleLogout st) (handleLogout st) = (handleLogout st, [], None).
Proof.
  unfold account_effect.
  destruct (account_effect_ready render) eqn:Hready.
  - rewrite (call_when_ready render st Hready). cbn [fst snd].
    split; [reflexivity |]. split.
    + intros _. split; [reflexivity |]. split; [reflexivity |].
      intros later. rewrite (call_when_ready render later Hready).
      split; reflexivity.
    + split; [discriminate | reflexivity].
  - cbn [fst snd]. split; [reflexivity |]. split; [discriminate |].
    split; reflexivity.
Qed.

Lemma account_effect_never_disconnects_witness :
  snd (account_effect synced_state synced_state) = Some synced_state
  /\ account_effect (initialState live_settings) synced_state = (synced_state, [], None).
Proof.
  destruct (account_effect_never_disconnects synced_state synced_state)
    as (_ & Hready & _ & _).
  destruct (account_effect_never_disconnects (initialState live_settings) synced_state)
    as (_ & _ & Hnot & _).
  split.
  - apply Hready. reflexivity.
  - apply Hnot. reflexivity.
Defined.

(** A run that connected, then a sign-out: the badge still says
    CONNECTED. *)
Example status_survives_logout :
  let connected := fst (refreshAccountData synced_state clk0 account_partial_body
                                           synced_state) in
  mexcStatus connected = Status.CONNECTED
  /\ mexcStatus (fst (fst (account_effect (handleLogout connected)
                                          (handleLogout connected))))
     = Status.CONNECTED.
Proof. split; reflexivity. Qed.

(** ** Login *)

(** X11. From a signed-out session, the login form opens the session
    exactly for the user name admin with the password 666666, compared
    exactly.  A refused attempt changes nothing but the error text and
    emits no ledger entry; an accepted one clears the error text and
    emits one SUCCESS entry.  The account effect that follows sends its
    request exactly when the attempt was accepted and both exchange
    keys are set. *)
Theorem login_gate (clk : Clock) (ui : LoginUi) :
  isLoggedIn (ui_app ui) = false ->
  (isLoggedIn (ui_app (handleLogin clk ui)) = true
   <-> username ui = "admin" /\ password ui = "666666")
  /\ (isLoggedIn (ui_app (handleLogin clk ui)) = false ->
      ui_app (handleLogin clk ui) = ui_app ui
      /\ loginError (handleLogin clk ui) = "Invalid credentials.")
  /\ (isLoggedIn (ui_app (handleLogin clk ui)) = true ->
      loginError (handleLogin clk ui) = ""
      /\ logs (ui_app (handleLogin clk ui))
         = firstn 100 (entry_of clk LogType.SUCCESS "Login successful"
                         :: logs (ui_app ui)))
  /\ (existsb is_account_fetch
        (snd (fst (account_effect (ui_app (handleLogin clk ui))
                                  (ui_app (handleLogin clk ui))))) = true
      <-> (username ui = "admin" /\ password ui = "666666")
          /\ mexcApiKey (settings (ui_app ui)) <> ""
          /\ mexcSecretKey (settings (ui_app ui)) <> "").
Proof.
  intros Hout. unfold handleLogin.
  destruct (String.eqb_spec (username ui) "admin") as [Hu | Hu];
    destruct (String.eqb_spec (password ui) "666666") as [Hp | Hp]; cbn [andb ui_app loginError].
  2-4: (split; [rewrite Hout; split; [discriminate | intros [? ?]; contradiction] |];
        split; [intros _; split; reflexivity |];
        split; [rewrite Hout; discriminate |];
        unfold account_effect, account_effect_ready; rewrite Hout; cbn [andb fst snd existsb];
        split; [discriminate | intros [[? ?] _]; contradiction]).
  split; [split; [intros _; split; assumption | reflexivity] |].
  split; [discriminate |].
  split; [intros _; split; [reflexivity | rewrite logs_addLog; reflexivity] |].
  unfold account_effect, account_effect_ready, call_refreshAccountData,
    refreshAccountData_start.
  cbn [isLoggedIn settings addLog setLogs setIsLoggedIn andb negb orb].
  destruct (mexcApiKey (settings (ui_app ui))) as [| c1 r1];
    destruct (mexcSecretKey (settings (ui_app ui))) as [| c2 r2];
    cbn [truthy andb negb orb fst snd existsb is_account_fetch].
  - split; [discriminate | intros (_ & H & _); congruence].
  - split; [discriminate | intros (_ & H & _); congruence].
  - split; [discriminate | intros (_ & _ & H); congruence].
  - split; [| reflexivity]. intros _.
    split; [split; assumption |]. split; discriminate.
Qed.

Lemma login_gate_witness :
  isLoggedIn (ui_app (handleLogin clk0 (admin_form (initialState live_settings)))) = true
  <-> username (admin_form (initialState live_settings)) = "admin"
      /\ password (admin_form (initialState live_settings)) = "666666".
Proof.
  apply (login_gate clk0 (admin_form (initialState live_settings))). reflexivity.
Defined.

Example login_is_case_sensitive :
  isLoggedIn (ui_app (handleLogin clk0
                        {| ui_app := initialState live_settings; username := "Admin";
                           password := "666666"; loginError := "" |})) = false.
Proof. reflexivity. Qed.

(** ** Settings inputs on numerals *)

Lemma parseDigits_uint (d : Decimal.uint) :
  forall d' : Decimal.uint,
    parseDigits 10 (NilEmpty.string_of_uint d)
                (Some (Z.of_N (DecimalPos.Unsigned.of_lu d')))
    = Some (Z.of_N (DecimalPos.Unsigned.of_lu (Decimal.revapp d d'))).
Proof.
  induction d as [| d IH | d IH | d IH | d IH | d IH | d IH | d IH | d IH | d IH | d IH];
    intros d'; [reflexivity | ..];
    cbn [NilEmpty.string_of_uint parseDigits Decimal.revapp];
    match goal with
    | |- context [digitValue ?c] =>
        let v := eval vm_compute in (digitValue c) in
        change (digitValue c) with v
    end;
    cbn [Z.ltb Z.compare Pos.compare Pos.compare_cont];
    rewrite <- IH; f_equal; f_equal; cbn [DecimalPos.Unsigned.of_lu]; lia.
Qed.

Lemma parseDigits_uint_start (d : Decimal.uint) :
  d <> Decimal.Nil ->
  parseDigits 10 (NilEmpty.string_of_uint d) None
  = Some (Z.of_N (Pos.of_uint d)).
Proof.
  intros Hd. rewrite DecimalPos.Unsigned.of_uint_alt. unfold Decimal.rev.
  destruct d; [contradiction | ..];
    cbn [NilEmpty.string_of_uint parseDigits Decimal.revapp];
    match goal with
    | |- context [digitValue ?c] =>
        let v := eval vm_compute in (digitValue c) in
        change (digitValue c) with v
    end;
    cbn [Z.ltb Z.compare Pos.compare Pos.compare_cont];
    rewrite <- parseDigits_uint; reflexivity.
Qed.

Lemma stripPrefix_uint (d : Decimal.uint) :
  stripPrefix (NilEmpty.string_of_uint d) = (10, NilEmpty.string_of_uint d).
Proof. destruct d as [| d | | | | | | | | |]; try reflexivity. destruct d; reflexivity. Qed.

Lemma unsigned_uint (d : Decimal.uint) :
  d <> Decimal.Nil ->
  stripSign (trimStart (NilEmpty.string_of_uint d)) = (1, NilEmpty.string_of_uint d).
Proof. destruct d; [contradiction | ..]; reflexivity. Qed.

Lemma nilzero_uint (d : Decimal.uint) :
  d <> Decimal.Nil -> NilZero.string_of_uint d = NilEmpty.string_of_uint d.
Proof. destruct d; [contradiction | ..]; reflexivity. Qed.

Lemma signed_uint (d : Decimal.uint) :
  stripSign (trimStart (String "-" (NilEmpty.string_of_uint d)))
  = (-1, NilEmpty.string_of_uint d).
Proof. reflexivity. Qed.

Lemma parseInt_pos (p : positive) : parseInt (string_of_Z (Zpos p)) = Some (Zpos p).
Proof.
  pose proof (DecimalPos.Unsigned.to_uint_nonnil p) as Hnil.
  unfold string_of_Z, parseInt. cbn [Z.to_int NilZero.string_of_int].
  rewrite (nilzero_uint _ Hnil), (unsigned_uint _ Hnil). cbv beta iota.
  rewrite stripPrefix_uint. cbv beta iota.
  rewrite (parseDigits_uint_start _ Hnil), DecimalPos.Unsigned.of_to. reflexivity.
Qed.

Lemma parseInt_neg (p : positive) : parseInt (string_of_Z (Zneg p)) = Some (Zneg p).
Proof.
  pose proof (DecimalPos.Unsigned.to_uint_nonnil p) as Hnil.
  unfold string_of_Z, parseInt. cbn [Z.to_int NilZero.string_of_int].
  rewrite (nilzero_uint _ Hnil), signed_uint. cbv beta iota.
  rewrite stripPrefix_uint. cbv beta iota.
  rewrite (parseDigits_uint_start _ Hnil), DecimalPos.Unsigned.of_to. reflexivity.
Qed.

(** Reading back the decimal form of an integer gives the integer. *)
Lemma parseInt_string_of_Z (n : Z) : parseInt (string_of_Z n) = Some n.
Proof.
  destruct n as [| p | p]; [reflexivity | apply parseInt_pos | apply parseInt_neg].
Qed.

(** X12. On the decimal form of an integer [n] the three numeric
    inputs store [n] clamped to their range: the leverage input stores
    [n] when it lies between 1 and 125, 125 above and 1 below, zero and
    negative numbers included; the risk input does the same with 100;
    the interval input stores [n] from 1 up, and 1 below, for [n] up to
    [2^53], the range in which every integer is a number of the
    language. *)
Theorem numeric_inputs_clamp (n : Z) (s : AppSettings) :
  defaultLeverage (onChange_leverage (string_of_Z n) s) = Z.min 125 (Z.max 1 n)
  /\ riskPercent (onChange_riskPercent (string_of_Z n) s) = Z.min 100 (Z.max 1 n)
  /\ (n <= 2 ^ 53 -> intervalMinutes (onChange_interval (string_of_Z n) s) = Z.max 1 n).
Proof.
  unfold onChange_leverage, onChange_riskPercent, onChange_interval.
  cbn [defaultLeverage riskPercent intervalMinutes
       with_defaultLeverage with_riskPercent with_intervalMinutes].
  rewrite parseInt_string_of_Z.
  destruct n as [| p | p]; cbn [num_or]; repeat split; lia.
Qed.

Lemma numeric_inputs_clamp_witness :
  intervalMinutes (onChange_interval (string_of_Z 1440) defaultSettings) = Z.max 1 1440.
Proof.
  destruct (numeric_inputs_clamp 1440 defaultSettings) as (_ & _ & H).
  apply H. vm_compute. discriminate.
Defined.

Example numeric_inputs_samples :
  string_of_Z 37 = "37"
  /\ defaultLeverage (onChange_leverage "37" defaultSettings) = 37
  /\ defaultLeverage (onChange_leverage "126" defaultSettings) = 125
  /\ riskPercent (onChange_riskPercent "-5" defaultSettings) = 1
  /\ intervalMinutes (onChange_interval "1440" defaultSettings) = 1440.
Proof. repeat split. Qed.

(** ** Settings edits in sequence *)

Lemma apply_edit_in_bounds (s : AppSettings) (e : SettingsEdit) :
  in_bounds s -> in_bounds (apply_edit s e).
Proof.
  unfold in_bounds. intros H.
  destruct e; cbn [apply_edit];
    unfold onChange_interval, onChange_leverage, onChange_riskPercent;
    cbn; lia.
Qed.

(** X13. The settings inputs keep the three numeric settings in range:
    from settings whose leverage is between 1 and 125, risk percent
    between 1 and 100 and interval at least 1, as the defaults are, no
    sequence of edits through the inputs, the selects and the
    auto-trading button leads out of these ranges. *)
Theorem edits_keep_bounds (edits : list SettingsEdit) (s : AppSettings) :
  in_bounds s -> in_bounds (apply_edits edits s).
Proof.
  unfold apply_edits. revert s.
  induction edits as [| e rest IH]; intros s H; [exact H |].
  cbn [fold_left]. apply IH, apply_edit_in_bounds, H.
Qed.

Lemma edits_keep_bounds_witness :
  in_bounds (apply_edits [EditLeverage "900"; ToggleAutoTrading; EditRiskPercent "x";
                          EditMode "live"; EditInterval "0"] defaultSettings).
Proof.
  apply (edits_keep_bounds _ defaultSettings). unfold in_bounds. cbn. lia.
Defined.

(** X14. The AI key input reads and writes the key of the selected
    provider and no other: after typing, the input shows what was
    typed and the keys of the two other providers are as before;
    selecting a provider changes no key; so a key typed for one
    provider is shown again after another provider was selected, given
    its own key, and the first one selected back. *)
Theorem ai_key_per_provider (p q : AIProvider) (v1 v2 : string) (s : AppSettings) :
  aiKey_value (onChange_aiKey v1 s) = v1
  /\ (forall other, other <> aiProvider s ->
                    key_of other (onChange_aiKey v1 s) = key_of other s)
  /\ (forall other, key_of other (onValueChange_aiProvider p s) = key_of other s)
  /\ (p <> q ->
      aiKey_value
        (onValueChange_aiProvider p
           (onChange_aiKey v2
              (onValueChange_aiProvider q
                 (onChange_aiKey v1 (onValueChange_aiProvider p s))))) = v1).
Proof.
  split; [unfold aiKey_value, onChange_aiKey; destruct (aiProvider s); reflexivity |].
  split.
  - intros other Hne. unfold onChange_aiKey.
    destruct other, (aiProvider s); try reflexivity; contradiction.
  - split; [intros other; destruct other; reflexivity |].
    intros Hne. destruct p, q; try reflexivity; contradiction.
Qed.

Lemma ai_key_per_provider_witness :
  aiKey_value
    (onValueChange_aiProvider gemini
       (onChange_aiKey "sk-openai"
          (onValueChange_aiProvider openai
             (onChange_aiKey "g-key" (onValueChange_aiProvider gemini defaultSettings)))))
  = "g-key".
Proof.
  destruct (ai_key_per_provider gemini openai "g-key" "sk-openai" defaultSettings)
    as (_ & _ & _ & H).
  apply H. discriminate.
Defined.

(** ** The scheduler over whole executions *)

Lemma replace_at_split {A : Type} (i : nat) (new l : list A) (x : A) :
  nth_error l i = Some x ->
  exists l1 l2, l = (l1 ++ x :: l2)%list /\ replace_at i new l = (l1 ++ new ++ l2)%list.
Proof.
  intros H. destruct (nth_error_split l i H) as (l1 & l2 & Hl & Hlen).
  exists l1, l2. split; [exact Hl |].
  unfold replace_at. subst l i.
  rewrite firstn_app, firstn_all, Nat.sub_diag. cbn [firstn]. rewrite app_nil_r.
  replace (S (List.length l1)) with (List.length l1 + 1)%nat by lia.
  rewrite skipn_app, skipn_all2 by lia.
  replace (List.length l1 + 1 - List.length l1)%nat with 1%nat by lia.
  reflexivity.
Qed.

(** What the segment after the oracle can send: nothing, and the cycle
    is over; or one order, and the cycle waits for the exchange. *)
Lemma onAnalyze_sends (cap : AppState) (md : MarketData) (clk : Clock)
      (reply : Outcome (Response TradeAction)) (st : AppState) :
  (snd (fst (runTradingCycle_onAnalyze cap md clk reply st)) = []
   /\ snd (runTradingCycle_onAnalyze cap md clk reply st) = false)
  \/ (isLiveMode (settings cap) = true
      /\ exists d, await_json reply = Resolved d
                   /\ action d <> "WAIT"
                   /\ snd (fst (runTradingCycle_onAnalyze cap md clk reply st))
                      = [EvPostTrade (trade_body cap md d)]
                   /\ snd (runTradingCycle_onAnalyze cap md clk reply st) = true).
Proof.
  unfold runTradingCycle_onAnalyze.
  destruct (await_json reply) as [d | e]; [| left; split; reflexivity].
  destruct (String.eqb_spec (action d) "WAIT") as [Hw | Hw]; cbn [negb];
    [left; split; reflexivity |].
  destruct (isLiveMode (settings cap)); [| left; split; reflexivity].
  right. split; [reflexivity |]. exists d. repeat split. exact Hw.
Qed.

(** What the segment after the exchange can send: no request to the
    oracle, no order, and at most one call of the synchronizer. *)
Lemma onTrade_sends (cap : AppState) (clk : Clock)
      (reply : Outcome (Response string)) (st : AppState) :
  count is_analyze (snd (runTradingCycle_onTrade cap clk reply st)) = 0%nat
  /\ count is_trade (snd (runTradingCycle_onTrade cap clk reply st)) = 0%nat
  /\ (count is_refresh (snd (runTradingCycle_onTrade cap clk reply st)) <= 1)%nat.
Proof.
  unfold runTradingCycle_onTrade.
  destruct reply as [r | e]; [| repeat split; cbn; lia].
  destruct (refreshAccountData_start cap st) as [st1 [req |]]; repeat split; cbn; lia.
Qed.

Lemma start_sends (cap st : AppState) :
  (snd (fst (runTradingCycle_start cap st)) = []
   /\ snd (runTradingCycle_start cap st) = None)
  \/ (exists md, snd (fst (runTradingCycle_start cap st))
                 = [EvPostAnalyze (analyze_body cap md)]
                 /\ snd (runTradingCycle_start cap st) = Some md).
Proof.
  unfold runTradingCycle_start.
  destruct (isAutoTrading (settings cap)); cbn [negb]; [| left; split; reflexivity].
  destruct (marketData cap) as [md |]; [| left; split; reflexivity].
  right. exists md. split; reflexivity.
Qed.

Lemma resume_frame (clk : Clock) (reply : Outcome (Response AccountPayload))
      (st : AppState) :
  settings (refreshAccountData_resume clk reply st) = settings st
  /\ marketData (refreshAccountData_resume clk reply st) = marketData st
  /\ (List.length (logs (refreshAccountData_resume clk reply st)) <= 100)%nat.
Proof.
  unfold refreshAccountData_resume, refreshAccountData_catch.
  destruct (await_json reply) as [data | e].
  - destruct (truthy_opt (error data)).
    + split; [reflexivity |]. split; [reflexivity |].
      cbn [logs setMexcStatus]. apply logs_addLog_length.
    + split; [reflexivity |]. split; [reflexivity |]. apply logs_addLog_length.
  - split; [reflexivity |]. split; [reflexivity |].
    cbn [logs setMexcStatus]. apply logs_addLog_length.
Qed.

Lemma refreshMarket_frame (cap : AppState) (currentTime : string)
      (reply : Outcome (Response Ticker)) (st : AppState) :
  settings (refreshMarket cap currentTime reply st) = settings st
  /\ logs (refreshMarket cap currentTime reply st) = logs st
  /\ ((List.length (history_of st) <= 50)%nat ->
      (List.length (history_of (refreshMarket cap currentTime reply st)) <= 50)%nat).
Proof.
  split; [| split].
  - unfold refreshMarket, refreshMarket_catch.
    destruct reply as [response | e]; [| destruct (isLoading cap); reflexivity].
    destruct (ok response); cbn [negb]; [| destruct (isLoading cap); reflexivity].
    destruct (json response); destruct (isLoading cap); reflexivity.
  - unfold refreshMarket, refreshMarket_catch.
    destruct reply as [response | e]; [| destruct (isLoading cap); reflexivity].
    destruct (ok response); cbn [negb]; [| destruct (isLoading cap); reflexivity].
    destruct (json response); destruct (isLoading cap); reflexivity.
  - intros H.
    change (refreshMarket cap currentTime reply st)
      with (market_step st (mkTick cap currentTime reply)).
    rewrite history_market_step.
    destruct (tick_point (mkTick cap currentTime reply));
      [apply most_recent_length | exact H].
Qed.

Lemma onAnalyze_logs (cap : AppState) (md : MarketData) (clk : Clock)
      (reply : Outcome (Response TradeAction)) (st : AppState) :
  (List.length (logs st) <= 100)%nat ->
  (List.length (logs (fst (fst (runTradingCycle_onAnalyze cap md clk reply st)))) <= 100)%nat.
Proof.
  intros H. unfold runTradingCycle_onAnalyze, runTradingCycle_catch.
  destruct (await_json reply) as [d | e];
    [| cbn [fst logs setIsAnalyzing]; apply logs_addLog_length].
  destruct (action d =? "WAIT")%string; cbn [negb]; [exact H |].
  destruct (isLiveMode (settings cap)); cbn [fst logs setIsAnalyzing];
    apply logs_addLog_length.
Qed.

Lemma onTrade_logs (cap : AppState) (clk : Clock)
      (reply : Outcome (Response string)) (st : AppState) :
  (List.length (logs st) <= 100)%nat ->
  (List.length (logs (fst (runTradingCycle_onTrade cap clk reply st))) <= 100)%nat.
Proof.
  intros H. unfold runTradingCycle_onTrade, runTradingCycle_catch.
  destruct reply as [r | e];
    [| cbn [fst logs setIsAnalyzing]; apply logs_addLog_length].
  pose proof (refreshAccountData_start_frame cap st) as (_ & Hl & _).
  destruct (refreshAccountData_start cap st) as [st1 req].
  cbn [fst logs setIsAnalyzing] in *. rewrite Hl. exact H.
Qed.

(** The state of the component after one event: its settings are the
    ones of a settings change or the ones before, and the two caps
    hold if they held. *)
Lemma step_app (s : Sched) (e : SchedEvent) :
  settings (app (step s e)) = last_settings [e] (settings (app s))
  /\ (within_caps (app s) -> within_caps (app (step s e))).
Proof.
  unfold within_caps, history_of.
  destruct e as [| | i clk reply | i clk reply | s' | t reply | clk reply];
    cbn [step last_settings].
  - unfold effect_run. destruct (isAutoTrading (settings (app s))); [| tauto].
    unfold start_cycle.
    pose proof (start_frame (app s) (app s)) as ((_ & Hs & Hm & _) & Hl).
    destruct (runTradingCycle_start (app s) (app s)) as [[st evs] k].
    cbn [fst app] in *. rewrite Hs, Hm, Hl. tauto.
  - destruct (timer s) as [cap |]; [| tauto].
    unfold start_cycle.
    pose proof (start_frame cap (app s)) as ((_ & Hs & Hm & _) & Hl).
    destruct (runTradingCycle_start cap (app s)) as [[st evs] k].
    cbn [fst app] in *. rewrite Hs, Hm, Hl. tauto.
  - destruct (nth_error (inflight s) i) as [[cap md | cap] |]; try tauto.
    pose proof (onAnalyze_frame cap md clk reply (app s)) as (_ & Hs & Hm & _).
    pose proof (onAnalyze_logs cap md clk reply (app s)) as Hl.
    destruct (runTradingCycle_onAnalyze cap md clk reply (app s)) as [[st evs] susp].
    cbn [fst app] in *. rewrite Hs, Hm. tauto.
  - destruct (nth_error (inflight s) i) as [[cap md | cap] |]; try tauto.
    pose proof (onTrade_frame cap clk reply (app s)) as (_ & Hs & Hm & _).
    pose proof (onTrade_logs cap clk reply (app s)) as Hl.
    destruct (runTradingCycle_onTrade cap clk reply (app s)) as [st evs].
    cbn [fst app] in *. rewrite Hs, Hm. tauto.
  - cbn [with_app app settings setSettings logs marketData]. tauto.
  - pose proof (refreshMarket_frame (app s) t reply (app s)) as (Hs & Hl & Hh).
    unfold history_of in Hh. cbn [with_app app]. rewrite Hs, Hl. tauto.
  - pose proof (resume_frame clk reply (app s)) as (Hs & Hm & Hl).
    cbn [with_app app]. rewrite Hs, Hm. tauto.
Qed.

Lemma mount_app (loaded : AppSettings) : app (mount loaded) = initialState loaded.
Proof.
  unfold mount, effect_run. cbn [app initialState settings].
  destruct (isAutoTrading loaded) eqn:Hauto; [| reflexivity].
  unfold start_cycle, runTradingCycle_start. cbn [app initialState settings marketData].
  rewrite Hauto. reflexivity.
Qed.

(** X15. Through every execution of the mounted component, whatever the
    order of effect runs, interval firings, replies of the oracle, the
    exchange, the ticker and the account endpoint, and settings
    changes, the ledger holds at most 100 entries and the price history
    at most 50 points. *)
Theorem caps_hold_in_every_execution (evs : list SchedEvent) (loaded : AppSettings) :
  (List.length (logs (app (run evs (mount loaded)))) <= 100)%nat
  /\ (List.length (history_of (app (run evs (mount loaded)))) <= 50)%nat.
Proof.
  assert (H : forall s, within_caps (app s) -> within_caps (app (run evs s))).
  { unfold run. induction evs as [| e rest IH]; intros s Hs; [exact Hs |].
    cbn [fold_left]. apply IH. apply (proj2 (step_app s e)), Hs. }
  apply H. rewrite mount_app. unfold within_caps. cbn. lia.
Qed.

(** X16. The polling tasks and the decision cycle read the settings and
    never write them: after any execution the settings are the ones of
    the last settings change, or the loaded ones if there was none. *)
Theorem settings_change_only_by_edit (evs : list SchedEvent) (loaded : AppSettings) :
  settings (app (run evs (mount loaded))) = last_settings evs loaded.
Proof.
  assert (H : forall s, settings (app (run evs s)) = last_settings evs (settings (app s))).
  { unfold run. induction evs as [| e rest IH]; intros s; [reflexivity |].
    cbn [fold_left]. rewrite IH, (proj1 (step_app s e)).
    destruct e; reflexivity. }
  rewrite H, mount_app. reflexivity.
Qed.

(** An event that is no reply to a cycle leaves the cycles in flight
    where they are and at most adds one at the end. *)
Lemma step_keeps_pending (s : Sched) (e : SchedEvent) :
  is_cycle_reply e = false ->
  exists more, inflight (step s e) = (inflight s ++ more)%list.
Proof.
  intros He.
  assert (Hstart : forall cap, exists more,
               inflight (start_cycle cap s) = (inflight s ++ more)%list).
  { intros cap. unfold start_cycle.
    destruct (runTradingCycle_start cap (app s)) as [[st evs] k].
    cbn [inflight]. eexists. reflexivity. }
  destruct e as [| | i clk reply | i clk reply | s' | t reply | clk reply];
    cbn [step is_cycle_reply] in *; try discriminate.
  - unfold effect_run. destruct (isAutoTrading (settings (app s))).
    + cbn [inflight]. apply Hstart.
    + cbn [inflight]. exists []. symmetry. apply app_nil_r.
  - destruct (timer s) as [cap |]; [apply Hstart |].
    exists []. symmetry. apply app_nil_r.
  - exists []. symmetry. apply app_nil_r.
  - exists []. symmetry. apply app_nil_r.
  - exists []. symmetry. apply app_nil_r.
Qed.

Lemma run_keeps_pending (evs : list SchedEvent) :
  forall (s : Sched) (i : nat) (p : Pending),
    no_cycle_reply evs = true ->
    nth_error (inflight s) i = Some p ->
    nth_error (inflight (run evs s)) i = Some p.
Proof.
  unfold run, no_cycle_reply.
  induction evs as [| e rest IH]; intros s i p Hevs Hi; [exact Hi |].
  cbn [fold_left forallb] in *. apply andb_true_iff in Hevs. destruct Hevs as [He Hrest].
  apply negb_true_iff in He.
  apply IH; [exact Hrest |].
  destruct (step_keeps_pending s e He) as [more ->].
  rewrite nth_error_app1; [exact Hi |]. apply nth_error_Some. congruence.
Qed.

(** X17. A cycle in flight finishes with the render it started from.
    The effect gives a cycle the render current when it runs.  While a
    cycle waits for the oracle, settings changes, effect runs, interval
    firings and replies of the ticker and the account endpoint, in any
    number and order, leave it in flight with that render.  When the
    oracle then answers an action other than WAIT: if live mode was on
    in that render, one order is sent, with the answered action, the
    price of the snapshot of that render and the keys, symbol and
    leverage of its settings, whatever the settings have become; if
    live mode was off in that render, no order is sent, even if it is
    on by now. *)
Theorem in_flight_cycle_keeps_its_closure
        (s : Sched) (evs : list SchedEvent) (i : nat) (cap : AppState) (md : MarketData)
        (clk : Clock) (reply : Outcome (Response TradeAction)) (answer : TradeAction) :
  nth_error (inflight s) i = Some (AwaitAnalyze cap md) ->
  no_cycle_reply evs = true ->
  await_json reply = Resolved answer ->
  action answer <> "WAIT" ->
  (isLiveMode (settings cap) = true ->
   exists body,
     sent (step (run evs s) (AnalyzeReply i clk reply))
     = (sent (run evs s) ++ [EvPostTrade body])%list
     /\ tr_action body = action answer
     /\ tr_price body = price md
     /\ tr_apiKey body = mexcApiKey (settings cap)
     /\ tr_secretKey body = mexcSecretKey (settings cap)
     /\ tr_symbol body = tradingSymbol (settings cap)
     /\ tr_leverage body = defaultLeverage (settings cap))
  /\ (isLiveMode (settings cap) = false ->
      sent (step (run evs s) (AnalyzeReply i clk reply)) = sent (run evs s))
  /\ (forall s0 md0,
         isAutoTrading (settings (app s0)) = true ->
         marketData (app s0) = Some md0 ->
         inflight (step s0 EffectRun)
         = (inflight s0 ++ [AwaitAnalyze (app s0) md0])%list).
Proof.
  intros Hi Hevs Hreply Hact.
  pose proof (run_keeps_pending evs s i _ Hevs Hi) as Hlater.
  split; [| split].
  - intros Hlive. cbn [step]. rewrite Hlater.
    unfold runTradingCycle_onAnalyze. rewrite Hreply.
    destruct (String.eqb_spec (action answer) "WAIT") as [Hw | _]; [contradiction |].
    cbn [negb]. rewrite Hlive. cbn [sent].
    eexists. split; [reflexivity |]. repeat split.
  - intros Hsim. cbn [step]. rewrite Hlater.
    unfold runTradingCycle_onAnalyze. rewrite Hreply.
    destruct (String.eqb_spec (action answer) "WAIT") as [Hw | _]; [contradiction |].
    cbn [negb]. rewrite Hsim. cbn [sent]. apply app_nil_r.
  - intros s0 md0 Hauto Hmd. cbn [step]. unfold effect_run. rewrite Hauto.
    unfold start_cycle, runTradingCycle_start. rewrite Hauto, Hmd. reflexivity.
Qed.

(** A live cycle waits for the oracle; the operator goes back to the
    default settings, simulation and auto-trading off, the effect runs
    and the old interval would fire; then the oracle answers LONG.  The
    order is sent all the same, with the keys of the live settings. *)
Lemma in_flight_cycle_keeps_its_closure_witness :
  isLiveMode
    (settings (app (run [SettingsChange defaultSettings; EffectRun; TimerFire]
                        (run (firstn 4 late_answer_trace) (mount defaultSettings)))))
  = false
  /\ exists body,
      sent (step (run [SettingsChange defaultSettings; EffectRun; TimerFire]
                      (run (firstn 4 late_answer_trace) (mount defaultSettings)))
                 (AnalyzeReply 0 clk0 oracle_long80))
      = (sent (run [SettingsChange defaultSettings; EffectRun; TimerFire]
                   (run (firstn 4 late_answer_trace) (mount defaultSettings)))
         ++ [EvPostTrade body])%list
      /\ tr_action body = "LONG"
      /\ tr_price body = 67000 # 1
      /\ tr_apiKey body = "api-key"
      /\ tr_secretKey body = "secret-key"
      /\ tr_symbol body = "BTCUSDT"
      /\ tr_leverage body = 10.
Proof.
  split; [reflexivity |].
  refine (proj1 (in_flight_cycle_keeps_its_closure
                   (run (firstn 4 late_answer_trace) (mount defaultSettings))
                   [SettingsChange defaultSettings; EffectRun; TimerFire] 0
                   (setSettings (fun _ => live_settings)
                      (setIsLoading false
                         (setMarketData (mergeTicker "10:00:00" btc_ticker)
                                        (initialState defaultSettings))))
                   {| price := 67000 # 1; change24h := 3 # 2;
                      history := [mkPoint "10:00:00" (67000 # 1)] |}
                   clk0 oracle_long80 long80 _ _ _ _) _);
    [reflexivity | reflexivity | reflexivity | discriminate | reflexivity].
Defined.

Lemma existsb_is_trade_app (l r : list Event) :
  existsb is_trade (l ++ r) = existsb is_trade l || existsb is_trade r.
Proof. apply existsb_app. Qed.

Lemma Forall_replace_at {A : Type} (P : A -> Prop) (i : nat) (new l : list A) (x : A) :
  nth_error l i = Some x -> Forall P l -> Forall P new -> Forall P (replace_at i new l).
Proof.
  intros Hi Hl Hnew. destruct (replace_at_split i new l x Hi) as (l1 & l2 & -> & ->).
  apply Forall_app in Hl. destruct Hl as [H1 H2]. inversion H2; subst.
  apply Forall_app. split; [exact H1 |]. apply Forall_app. split; assumption.
Qed.

Lemma start_cycle_simulated (cap : AppState) (s : Sched) :
  isLiveMode (settings cap) = false ->
  simulated s -> simulated (start_cycle cap s).
Proof.
  intros Hcap (Happ & Htimer & Hfly & Hsent). unfold simulated, start_cycle.
  pose proof (start_frame cap (app s)) as ((_ & Hs & _) & _).
  destruct (start_sends cap (app s)) as [[Hev Hk] | (md & Hev & Hk)];
    destruct (runTradingCycle_start cap (app s)) as [[st evs] k];
    cbn [fst snd app timer inflight sent] in *; subst evs k; rewrite Hs.
  - rewrite !app_nil_r. repeat split; assumption.
  - split; [exact Happ |]. split; [exact Htimer |]. split.
    + apply Forall_app. split; [exact Hfly |]. constructor; [exact Hcap | constructor].
    + rewrite existsb_is_trade_app, Hsent. reflexivity.
Qed.

Lemma step_simulated (s : Sched) (e : SchedEvent) :
  keeps_simulation e = true -> simulated s -> simulated (step s e).
Proof.
  intros He Hsim.
  destruct e as [| | i clk reply | i clk reply | s' | t reply | clk reply];
    cbn [step keeps_simulation] in *.
  - unfold effect_run.
    destruct (isAutoTrading (settings (app s))).
    + pose proof (start_cycle_simulated (app s) s (proj1 Hsim) Hsim)
        as (H1 & _ & H3 & H4).
      unfold simulated. cbn [app timer inflight sent].
      split; [exact H1 |]. split; [| split; assumption].
      intros cap Hc. injection Hc as <-. exact (proj1 Hsim).
    + destruct Hsim as (H1 & _ & H3 & H4). unfold simulated. cbn [app timer inflight sent].
      split; [exact H1 |]. split; [discriminate | split; assumption].
  - destruct (timer s) as [cap |] eqn:Ht; [| exact Hsim].
    apply start_cycle_simulated; [| exact Hsim].
    destruct Hsim as (_ & Htimer & _). apply Htimer. exact Ht.
  - destruct (nth_error (inflight s) i) as [[cap md | cap] |] eqn:Hi; try exact Hsim.
    destruct Hsim as (Happ & Htimer & Hfly & Hsent).
    assert (Hcap : isLiveMode (settings cap) = false).
    { rewrite Forall_forall in Hfly.
      apply (Hfly (AwaitAnalyze cap md)). eapply nth_error_In, Hi. }
    pose proof (onAnalyze_frame cap md clk reply (app s)) as (_ & Hs & _).
    destruct (onAnalyze_sends cap md clk reply (app s))
      as [[Hev Hsusp] | (Hlive & _)]; [| congruence].
    destruct (runTradingCycle_onAnalyze cap md clk reply (app s)) as [[st evs] susp].
    cbn [fst snd] in *. subst evs susp.
    unfold simulated. cbn [app timer inflight sent]. rewrite Hs, app_nil_r.
    split; [exact Happ |]. split; [exact Htimer |]. split; [| exact Hsent].
    eapply Forall_replace_at; [exact Hi | exact Hfly | constructor].
  - destruct (nth_error (inflight s) i) as [[cap md | cap] |] eqn:Hi; try exact Hsim.
    destruct Hsim as (Happ & Htimer & Hfly & Hsent).
    pose proof (onTrade_frame cap clk reply (app s)) as (_ & Hs & _).
    pose proof (onTrade_sends cap clk reply (app s)) as (_ & Ht & _).
    destruct (runTradingCycle_onTrade cap clk reply (app s)) as [st evs].
    cbn [fst snd] in *.
    unfold simulated. cbn [app timer inflight sent]. rewrite Hs.
    split; [exact Happ |]. split; [exact Htimer |]. split.
    + eapply Forall_replace_at; [exact Hi | exact Hfly | constructor].
    + rewrite existsb_is_trade_app, Hsent. cbn [orb].
      unfold count in Ht. apply length_zero_iff_nil in Ht.
      destruct (existsb is_trade evs) eqn:Hex; [| reflexivity].
      apply existsb_exists in Hex. destruct Hex as (x & Hin & Hx).
      assert (Hf : In x (filter is_trade evs)) by (apply filter_In; split; assumption).
      rewrite Ht in Hf. contradiction.
  - destruct Hsim as (Happ & Htimer & Hfly & Hsent).
    unfold simulated. cbn [with_app app timer inflight sent settings setSettings].
    apply negb_true_iff in He. repeat split; assumption.
  - destruct Hsim as (Happ & Htimer & Hfly & Hsent).
    pose proof (refreshMarket_frame (app s) t reply (app s)) as (Hs & _).
    unfold simulated. cbn [with_app app timer inflight sent]. rewrite Hs.
    repeat split; assumption.
  - destruct Hsim as (Happ & Htimer & Hfly & Hsent).
    pose proof (resume_frame clk reply (app s)) as (Hs & _).
    unfold simulated. cbn [with_app app timer inflight sent]. rewrite Hs.
    repeat split; assumption.
Qed.

Lemma mount_shape (loaded : AppSettings) :
  inflight (mount loaded) = [] /\ sent (mount loaded) = []
  /\ (forall cap, timer (mount loaded) = Some cap -> cap = initialState loaded).
Proof.
  unfold mount, effect_run. cbn [app initialState settings].
  destruct (isAutoTrading loaded) eqn:Hauto.
  - unfold start_cycle, runTradingCycle_start. cbn [app initialState settings marketData].
    rewrite Hauto. cbn [negb inflight sent timer app_nil_r List.app].
    repeat split. intros cap H. injection H as <-. reflexivity.
  - cbn [inflight sent timer]. repeat split. discriminate.
Qed.

(** X18. Simulation mode never trades.  If the loaded settings have
    live mode off and no settings change of an execution switches it
    on, then no order is sent at any point of the execution, whatever
    the oracle answers and however the events interleave. *)
Theorem simulation_never_orders (evs : list SchedEvent) (loaded : AppSettings) :
  isLiveMode loaded = false ->
  forallb keeps_simulation evs = true ->
  existsb is_trade (sent (run evs (mount loaded))) = false.
Proof.
  intros Hloaded Hevs.
  assert (H : forall s, simulated s -> forallb keeps_simulation evs = true ->
                        simulated (run evs s)).
  { clear Hevs. unfold run. induction evs as [| e rest IH]; intros s Hs Hk; [exact Hs |].
    cbn [fold_left forallb] in *. apply andb_true_iff in Hk. destruct Hk as [He Hrest].
    apply IH; [apply step_simulated; assumption | exact Hrest]. }
  apply (H (mount loaded)); [| exact Hevs].
  destruct (mount_shape loaded) as (Hfly & Hsent & Htimer).
  unfold simulated. rewrite mount_app, Hfly, Hsent. cbn [settings initialState].
  repeat split; try assumption; [| constructor].
  intros cap Hc. rewrite (Htimer cap Hc). exact Hloaded.
Qed.

Lemma simulation_never_orders_witness :
  existsb is_trade (sent (run spaced_trace (mount defaultSettings))) = false.
Proof.
  apply (simulation_never_orders spaced_trace defaultSettings); reflexivity.
Defined.

Lemma start_cycle_balanced (cap : AppState) (s : Sched) :
  balanced s -> balanced (start_cycle cap s).
Proof.
  unfold balanced, start_cycle. intros [H1 H2].
  destruct (start_sends cap (app s)) as [[Hev Hk] | (md & Hev & Hk)];
    destruct (runTradingCycle_start cap (app s)) as [[st evs] k];
    cbn [fst snd inflight sent] in *; subst evs k.
  - rewrite !app_nil_r. split; assumption.
  - rewrite !count_app, !count_cons, !count_nil.
    cbn [is_trade is_analyze is_refresh awaits_analyze awaits_trade]. lia.
Qed.

Lemma step_balanced (s : Sched) (e : SchedEvent) : balanced s -> balanced (step s e).
Proof.
  intros Hb.
  destruct e as [| | i clk reply | i clk reply | s' | t reply | clk reply]; cbn [step];
    try exact Hb.
  - unfold effect_run. destruct (isAutoTrading (settings (app s))); [| exact Hb].
    exact (start_cycle_balanced (app s) s Hb).
  - destruct (timer s) as [cap |]; [| exact Hb]. apply start_cycle_balanced, Hb.
  - destruct (nth_error (inflight s) i) as [[cap md | cap] |] eqn:Hi; try exact Hb.
    destruct (replace_at_split i [] (inflight s) _ Hi) as (l1 & l2 & Hl & _).
    unfold balanced in *. destruct Hb as [H1 H2].
    destruct (onAnalyze_sends cap md clk reply (app s))
      as [[Hev Hsusp] | (_ & d & _ & _ & Hev & Hsusp)];
      destruct (runTradingCycle_onAnalyze cap md clk reply (app s)) as [[st evs] susp];
      cbn [fst snd inflight sent] in *; subst evs susp;
      destruct (replace_at_split i [] (inflight s) _ Hi) as (k1 & k2 & Hk & Hr0);
      destruct (replace_at_split i [AwaitTrade cap] (inflight s) _ Hi)
        as (m1 & m2 & Hm & Hr1);
      rewrite ?Hr0, ?Hr1; rewrite Hk in H1, H2;
      assert (Heq : (k1 ++ AwaitAnalyze cap md :: k2)%list
                    = (m1 ++ AwaitAnalyze cap md :: m2)%list) by congruence;
      rewrite !count_app, !count_cons, ?count_nil in *;
      cbn [is_trade is_analyze is_refresh awaits_analyze awaits_trade] in *.
    + lia.
    + assert (Hc1 : (count awaits_analyze m1 + count awaits_analyze m2
                     = count awaits_analyze k1 + count awaits_analyze k2)%nat).
      { apply (f_equal (count awaits_analyze)) in Heq.
        rewrite !count_app, !count_cons in Heq. cbn [awaits_analyze] in Heq. lia. }
      assert (Hc2 : (count awaits_trade m1 + count awaits_trade m2
                     = count awaits_trade k1 + count awaits_trade k2)%nat).
      { apply (f_equal (count awaits_trade)) in Heq.
        rewrite !count_app, !count_cons in Heq. cbn [awaits_trade] in Heq. lia. }
      lia.
  - destruct (nth_error (inflight s) i) as [[cap md | cap] |] eqn:Hi; try exact Hb.
    unfold balanced in *. destruct Hb as [H1 H2].
    pose proof (onTrade_sends cap clk reply (app s)) as (Ha & Ht & Hr).
    destruct (runTradingCycle_onTrade cap clk reply (app s)) as [st evs].
    cbn [fst snd inflight sent] in *.
    destruct (replace_at_split i [] (inflight s) _ Hi) as (k1 & k2 & Hk & Hr0).
    rewrite Hr0. rewrite Hk in H1, H2.
    rewrite !count_app, !count_cons, ?count_nil in *.
    cbn [awaits_analyze awaits_trade] in *. lia.
Qed.

(** X19. The scheduler keeps its books through every execution: the
    orders sent plus the cycles still waiting for the oracle never
    exceed the oracle requests sent, and the calls of the synchronizer
    made by cycles plus the cycles still waiting for the exchange never
    exceed the orders sent.  So it never sends an order without an
    answered oracle request of its own, and never more than one per
    request. *)
Theorem orders_never_exceed_oracle_requests (evs : list SchedEvent) (loaded : AppSettings) :
  (count is_trade (sent (run evs (mount loaded)))
   + count awaits_analyze (inflight (run evs (mount loaded)))
   <= count is_analyze (sent (run evs (mount loaded))))%nat
  /\ (count is_refresh (sent (run evs (mount loaded)))
      + count awaits_trade (inflight (run evs (mount loaded)))
      <= count is_trade (sent (run evs (mount loaded))))%nat.
Proof.
  assert (H : forall s, balanced s -> balanced (run evs s)).
  { unfold run. induction evs as [| e rest IH]; intros s Hs; [exact Hs |].
    cbn [fold_left]. apply IH, step_balanced, Hs. }
  apply (H (mount loaded)).
  destruct (mount_shape loaded) as (Hfly & Hsent & _).
  unfold balanced. rewrite Hfly, Hsent. cbn. lia.
Qed.

Lemma step_stopped (s : Sched) (e : SchedEvent) :
  timer s = None ->
  is_effect_run e = false ->
  timer (step s e) = None
  /\ count is_analyze (sent (step s e)) = count is_analyze (sent s)
  /\ (in_flight (step s e) <= in_flight s)%nat.
Proof.
  intros Ht He.
  pose proof (step_in_flight s e) as Hfly.
  destruct e as [| | i clk reply | i clk reply | s' | t reply | clk reply];
    cbn [step is_effect_run calls_cycle] in *; try discriminate.
  - rewrite Ht. repeat split; [exact Ht | lia].
  - destruct (nth_error (inflight s) i) as [[cap md | cap] |] eqn:Hi;
      try (repeat split; [exact Ht | lia]).
    destruct (onAnalyze_sends cap md clk reply (app s))
      as [[Hev Hsusp] | (_ & d & _ & _ & Hev & Hsusp)];
      destruct (runTradingCycle_onAnalyze cap md clk reply (app s)) as [[st evs] susp];
      cbn [fst snd timer sent] in *; subst evs susp;
      (split; [exact Ht |]); (split; [| lia]);
      rewrite count_app; cbn; lia.
  - destruct (nth_error (inflight s) i) as [[cap md | cap] |] eqn:Hi;
      try (repeat split; [exact Ht | lia]).
    pose proof (onTrade_sends cap clk reply (app s)) as (Ha & _).
    destruct (runTradingCycle_onTrade cap clk reply (app s)) as [st evs].
    cbn [fst snd timer sent] in *.
    split; [exact Ht |]. split; [| lia]. rewrite count_app, Ha. lia.
  - cbn [with_app timer sent]. repeat split; [exact Ht | lia].
  - cbn [with_app timer sent]. repeat split; [exact Ht | lia].
  - cbn [with_app timer sent]. repeat split; [exact Ht | lia].
Qed.

Lemma run_stopped (evs : list SchedEvent) :
  forall s : Sched,
    timer s = None ->
    no_effect_run evs = true ->
    timer (run evs s) = None
    /\ count is_analyze (sent (run evs s)) = count is_analyze (sent s)
    /\ (in_flight (run evs s) <= in_flight s)%nat.
Proof.
  unfold run, no_effect_run.
  induction evs as [| e rest IH]; intros s Ht Hevs;
    [cbn [fold_left]; repeat split; [exact Ht | lia] |].
  cbn [fold_left forallb] in *. apply andb_true_iff in Hevs. destruct Hevs as [He Hrest].
  apply negb_true_iff in He.
  destruct (step_stopped s e Ht He) as (Ht' & Hc & Hf).
  destruct (IH (step s e) Ht' Hrest) as (Ht2 & Hc2 & Hf2).
  split; [exact Ht2 |]. split; lia.
Qed.

(** X20. Turning auto-trading off stops the cadence and nothing else.
    When the effect runs with auto-trading off it clears the interval
    and cancels no cycle in flight; from then on, until the effect runs
    again, no oracle request is sent whatever happens, interval firings
    included, and the cycles in flight can only finish. *)
Theorem stopped_scheduler_asks_nothing (evs : list SchedEvent) (s : Sched) :
  isAutoTrading (settings (app s)) = false ->
  no_effect_run evs = true ->
  inflight (step s EffectRun) = inflight s
  /\ timer (run evs (step s EffectRun)) = None
  /\ count is_analyze (sent (run evs (step s EffectRun))) = count is_analyze (sent s)
  /\ (in_flight (run evs (step s EffectRun)) <= in_flight s)%nat.
Proof.
  intros Hoff Hevs.
  assert (Hstop : step s EffectRun
                  = {| app := app s; timer := None; inflight := inflight s;
                       sent := sent s |}).
  { cbn [step]. unfold effect_run. rewrite Hoff. reflexivity. }
  rewrite Hstop. split; [reflexivity |].
  apply (run_stopped evs {| app := app s; timer := None; inflight := inflight s;
                            sent := sent s |}); [reflexivity | exact Hevs].
Qed.

Lemma stopped_scheduler_asks_nothing_witness :
  in_flight (run (firstn 5 late_answer_trace) (mount defaultSettings)) = 1%nat
  /\ count is_analyze
       (sent (run [TimerFire; AnalyzeReply 0 clk0 oracle_long80; TimerFire]
                  (step (run (firstn 5 late_answer_trace) (mount defaultSettings))
                        EffectRun)))
     = count is_analyze (sent (run (firstn 5 late_answer_trace) (mount defaultSettings))).
Proof.
  split; [reflexivity |].
  apply (stopped_scheduler_asks_nothing
           [TimerFire; AnalyzeReply 0 clk0 oracle_long80; TimerFire]
           (run (firstn 5 late_answer_trace) (mount defaultSettings)));
    reflexivity.
Defined.
